(** * wtc.py: notifications of several Icinga instances, merged and printed

    A shallow embedding of [wtc.py] and the proofs of the properties its
    specification states.

    Modelling decisions, all visible in the definitions below:
    - a JSON field value is a scalar: [None] (JSON null, and what
      [dict.get] gives for a missing key), a boolean, an integer or a
      string.  Icinga's list endpoints answer with flat rows; floats and
      nested containers as field values are outside the model;
    - a row is a Python [dict] with string keys: a [gmap string value];
    - Python exceptions are values of [exn], a computation that can raise
      is a [result], and code that prints runs in [IO], which threads the
      text written to standard output;
    - the network, [json.loads] and the local clock are not part of the
      source: one HTTP exchange is summarised by a [response], and the
      local-time conversion is a parameter of the development. *)

From Stdlib Require Import ZArith QArith Ascii String List Sorted Permutation.
From stdpp Require Import base tactics option list gmap strings pretty.

Local Open Scope string_scope.
Local Open Scope list_scope.
Local Open Scope Z_scope.

(** ** Python values and exceptions *)

Inductive value : Type :=
  | VNone
  | VBool (b : bool)
  | VInt (n : Z)
  | VStr (s : string).

#[global] Instance value_eq_dec : EqDecision value.
Proof. solve_decision. Defined.

Inductive exn : Type :=
  | TypeError
  | ValueError
  | OverflowError
  | OSError
  | RequestException
  | KeyboardInterrupt
  | SystemExit (code : Z).

#[global] Instance exn_eq_dec : EqDecision exn.
Proof. solve_decision. Defined.

Inductive result (A : Type) : Type :=
  | Return (a : A)
  | Raise (e : exn).
Arguments Return {A} a.
Arguments Raise {A} e.

#[global] Instance result_ret : MRet result := @Return.

#[global] Instance result_bind : MBind result := fun A B k m =>
  match m with
  | Return a => k a
  | Raise e => Raise e
  end.

(** A Python [dict] with string keys; [r.get(k)] gives [None] when the key
    is missing. *)
Abbreviation row := (gmap string value).

Definition dict_get (r : row) (k : string) : value :=
  default VNone (r !! k).

(** [r.update({k: v})] *)
Definition dict_update (k : string) (v : value) (r : row) : row :=
  <[k := v]> r.

(** ** Builtins the script relies on *)

Module Py.

(** [True] and [False] are the integers 1 and 0. *)
Definition as_number (v : value) : option Z :=
  match v with
  | VBool b => Some (if b then 1 else 0)
  | VInt n => Some n
  | _ => None
  end.

(** [a < b]: numbers with numbers, strings with strings (by code point,
    which on UTF-8 text is the byte order); anything else is a
    [TypeError], [None] included. *)
Definition lt (a b : value) : result bool :=
  match as_number a, as_number b with
  | Some x, Some y => Return (x <? y)
  | _, _ =>
      match a, b with
      | VStr s, VStr t => Return (String.ltb s t)
      | _, _ => Raise TypeError
      end
  end.

(** [a >= b] *)
Definition ge (a b : value) : result bool :=
  match as_number a, as_number b with
  | Some x, Some y => Return (y <=? x)
  | _, _ =>
      match a, b with
      | VStr s, VStr t => Return (String.leb t s)
      | _, _ => Raise TypeError
      end
  end.

(** [str(v)], which is also what an f-string field [{v}] expands to. *)
Definition str (v : value) : string :=
  match v with
  | VNone => "None"
  | VBool true => "True"
  | VBool false => "False"
  | VInt n => pretty n
  | VStr s => s
  end.

(** [f"{n:02d}"]: decimal, zero-padded to a width of at least two. *)
Definition fmt_02d (n : Z) : string :=
  if (0 <=? n) && (n <? 10) then "0" +:+ pretty n else pretty n.

(** [sep.join(items)]: every item has to be a [str]. *)
Fixpoint join_strs (sep : string) (items : list string) : string :=
  match items with
  | [] => ""
  | [s] => s
  | s :: rest => s +:+ sep +:+ join_strs sep rest
  end.

Fixpoint all_strs (items : list value) : result (list string) :=
  match items with
  | [] => Return []
  | VStr s :: rest => l ← all_strs rest; Return (s :: l)
  | _ :: _ => Raise TypeError
  end.

Definition join (sep : string) (items : list value) : result string :=
  l ← all_strs items; Return (join_strs sep l).

(** [int(v)].  For a string: surrounding whitespace is dropped, one sign
    is allowed, then decimal digits, single underscores between digits.
    Only ASCII digits and ASCII whitespace are recognised here, and
    CPython's cap on the number of digits is left out. *)
Definition is_space (c : ascii) : bool :=
  let n := nat_of_ascii c in
  ((9 <=? n) && (n <=? 13) || (28 <=? n) && (n <=? 32))%nat.

Definition digit_of (c : ascii) : option Z :=
  let n := Z.of_nat (nat_of_ascii c) in
  if (48 <=? n) && (n <=? 57) then Some (n - 48) else None.

Fixpoint lstrip (s : string) : string :=
  match s with
  | String c s' => if is_space c then lstrip s' else s
  | EmptyString => EmptyString
  end.

Definition strip (s : string) : string :=
  String.rev (lstrip (String.rev (lstrip s))).

Fixpoint digits (acc : Z) (after_digit : bool) (s : string) : option Z :=
  match s with
  | EmptyString => if after_digit then Some acc else None
  | String c s' =>
      match digit_of c with
      | Some d => digits (10 * acc + d) true s'
      | None =>
          if Ascii.eqb c "_"%char && after_digit
          then digits acc false s' else None
      end
  end.

Definition int_of_str (s : string) : result Z :=
  let body :=
    match strip s with
    | String "-" s' => option_map Z.opp (digits 0 false s')
    | String "+" s' => digits 0 false s'
    | s' => digits 0 false s'
    end in
  match body with
  | Some n => Return n
  | None => Raise ValueError
  end.

Definition int (v : value) : result Z :=
  match v with
  | VNone => Raise TypeError
  | VBool b => Return (if b then 1 else 0)
  | VInt n => Return n
  | VStr s => int_of_str s
  end.

End Py.

(** The escape sequences of colorama that the script uses. *)
Module Fore.
Definition CSI : string := String (ascii_of_nat 27) "[".
Definition GREEN : string := CSI +:+ "32m".
Definition YELLOW : string := CSI +:+ "33m".
Definition RED : string := CSI +:+ "31m".
Definition CYAN : string := CSI +:+ "36m".
Definition RESET : string := CSI +:+ "39m".
End Fore.

Module Style.
Definition BRIGHT : string := Fore.CSI +:+ "1m".
Definition RESET_ALL : string := Fore.CSI +:+ "0m".
End Style.

Module ansi.
Definition clear_screen : string := Fore.CSI +:+ "2J".
End ansi.

Definition newline : string := String (ascii_of_nat 10) EmptyString.

(** ** The pure helpers of the script *)

(** [generate_url]: the link to the check in the web interface.  The
    caller passes [row.get(...)] for [host] and [service], so both are
    values; the default of [service] is [None]. *)
Definition generate_url (instance : string) (host service : value) : string :=
  match service with
  | VNone =>
      instance +:+ "/dashboard#!/monitoring/host/show?host=" +:+ Py.str host
  | _ =>
      instance +:+ "/dashboard#!/monitoring/service/show?host=" +:+ Py.str host
        +:+ "&service=" +:+ Py.str service
  end.

(** [sort_by_ts]: the sort key of a row. *)
Definition sort_by_ts (elem : row) : value :=
  dict_get elem "notification_timestamp".

(** Two rows are in descending order: [a >= b] holds for their keys. *)
Definition ts_ge (a b : row) : Prop :=
  Py.ge (sort_by_ts a) (sort_by_ts b) = Return true.

(** The keys of the rows can be compared with each other: all are numbers,
    or all are strings. *)
Definition comparable (l : list row) : Prop :=
  Forall (fun r => is_Some (Py.as_number (sort_by_ts r))) l
  \/ Forall (fun r => exists s, sort_by_ts r = VStr s) l.

(** [state_string]: [states.get(state, state)] over the four entries of
    [states]; the keys are strings, so only a string can hit one. *)
Definition states : gmap string string :=
  {[ "0" := Fore.GREEN +:+ "OK" +:+ Fore.RESET;
     "1" := Fore.YELLOW +:+ "WARN" +:+ Fore.RESET;
     "2" := Fore.RED +:+ "CRIT" +:+ Fore.RESET;
     "3" := Fore.CYAN +:+ "UNKN" +:+ Fore.RESET ]}.

Definition state_string (state : value) : value :=
  match state with
  | VStr s =>
      match states !! s with
      | Some token => VStr token
      | None => state
      end
  | _ => state
  end.

(** ** Standard output and the [IO] monad *)

(** What has been written to standard output, one entry per write. *)
Definition stdout : Type := list string.

Definition IO (A : Type) : Type := stdout -> result A * stdout.

#[global] Instance IO_ret : MRet IO := fun A a out => (Return a, out).

#[global] Instance IO_bind : MBind IO := fun A B k m out =>
  match m out with
  | (Return a, out') => k a out'
  | (Raise e, out') => (Raise e, out')
  end.

(** [print(s, end='', flush=True)] *)
Definition write (s : string) : IO unit :=
  fun out => (Return tt, out ++ [s]).

(** [print(s)] *)
Definition print (s : string) : IO unit := write (s +:+ newline).

Definition raise {A} (e : exn) : IO A := fun out => (Raise e, out).

(** [sys.exit(code)] *)
Definition exit {A} (code : Z) : IO A := raise (SystemExit code).

Definition lift {A} (r : result A) : IO A := fun out => (r, out).

(** [try: body / except KeyboardInterrupt: handler] *)
Definition try_except_KeyboardInterrupt {A} (body handler : IO A) : IO A :=
  fun out =>
    match body out with
    | (Raise KeyboardInterrupt, out') => handler out'
    | other => other
    end.

(** ** The configuration and the outside world *)

(** The parsed command line, the global [args] of the script.  The compiled
    contact filter is represented by its [match] behaviour on strings:
    whether the pattern matches at the start of the string. *)
Record Args : Type := {
  arg_instance : list string;
  arg_lookback : string;
  arg_limit : Z;
  arg_filter : string -> bool;
  arg_disable_urls : bool;
  arg_watch : bool;
  arg_watch_interval : Z
}.

(** [pattern.match(v)]: a [TypeError] unless [v] is a string. *)
Definition re_match (pattern : string -> bool) (v : value) : result bool :=
  match v with
  | VStr s => Return (pattern s)
  | _ => Raise TypeError
  end.

(** One [requests.request] followed by [json.loads(response.text)]. *)
Inductive response : Type :=
  | Json (rows : list row)   (* the body is a JSON array of flat objects *)
  | NotJson                  (* [json.loads] raises [JSONDecodeError] *)
  | Failed (e : exn).        (* [requests.request] itself raises *)

(** The fields of a [datetime] that [strftime] prints. *)
Record datetime : Type := {
  year : Z; month : Z; day : Z; hour : Z; minute : Z; second : Z
}.

Definition pad4 (n : Z) : string :=
  (if n <? 10 then "000" else if n <? 100 then "00"
   else if n <? 1000 then "0" else "") +:+ pretty n.

(** [d.strftime('%Y-%m-%d %H:%M:%S')] *)
Definition strftime (d : datetime) : string :=
  pad4 (year d) +:+ "-" +:+ Py.fmt_02d (month d) +:+ "-" +:+ Py.fmt_02d (day d)
  +:+ " " +:+ Py.fmt_02d (hour d) +:+ ":" +:+ Py.fmt_02d (minute d)
  +:+ ":" +:+ Py.fmt_02d (second d).

(** ** The script *)

Section Script.

Variable args : Args.

(** [datetime.fromtimestamp]: the local time of a Unix timestamp, or the
    exception it raises when the timestamp is out of the platform's
    range. *)
Variable fromtimestamp : Z -> result datetime.

(** [show_time] *)
Definition show_time (ts : Z) : result string :=
  d ← fromtimestamp ts; Return (strftime d).

Section Pass.

(** What the network answers during this pass, per requested URL. *)
Variable request : string -> response.

Definition notifications_url (instance : string) : string :=
  instance +:+ "/monitoring/list/notifications?notification_timestamp>="
    +:+ arg_lookback args.

(** The body of [for row in output]: the row gets its link. *)
Definition add_link (instance : string) (r : row) : row :=
  dict_update "url"
    (VStr (generate_url instance (dict_get r "host_name")
             (dict_get r "service_description"))) r.

(** [get_instance_notifications] *)
Definition get_instance_notifications (instance : string) : IO (list row) :=
  match request (notifications_url instance) with
  | Failed e => raise e
  | NotJson =>
      _ ← print ("error decoding json from " +:+ instance
                  +:+ ". Login error?");
      exit 1
  | Json output => mret (add_link instance <$> output)
  end.

(** [returns.sort(key=key, reverse=True)].  [list.sort] is a builtin; it
    is modelled by a stable insertion sort that uses [<] on the keys,
    as [list.sort] does: an element is put in front of the first one
    that is not greater, so equal keys keep their original order. *)
Fixpoint insert_desc {A} (key : A -> value) (x : A) (l : list A)
  : result (list A) :=
  match l with
  | [] => Return [x]
  | y :: l' =>
      b ← Py.lt (key x) (key y);
      if b : bool then l'' ← insert_desc key x l'; Return (y :: l'')
      else Return (x :: l)
  end.

Fixpoint sort_reverse {A} (key : A -> value) (l : list A)
  : result (list A) :=
  match l with
  | [] => Return []
  | x :: l' => s ← sort_reverse key l'; insert_desc key x s
  end.

(** The loop of [data_of_instances]: [returns.extend(icinga_output)]. *)
Fixpoint fetch_all (instances : list string) (returns : list row)
  : IO (list row) :=
  match instances with
  | [] => mret returns
  | instance :: rest =>
      icinga_output ← get_instance_notifications instance;
      fetch_all rest (returns ++ icinga_output)
  end.

(** [data_of_instances] *)
Definition data_of_instances (instances : list string) : IO (list row) :=
  returns ← fetch_all instances [];
  lift (sort_reverse sort_by_ts returns).

Definition separator : string := " | ".

(** The second line of a displayed row: its link, bright green. *)
Definition url_line (url : value) : string :=
  "   `-" +:+ Fore.GREEN +:+ Style.BRIGHT +:+ Py.str url
    +:+ Style.RESET_ALL.

(** How one turn of the loop of [text_output] ends. *)
Inductive flow : Type :=
  | Continue (counter : Z)
  | Break.

(** The body of [for r in notifications]. *)
Definition text_output_body (limit counter : Z) (r : row) : IO flow :=
  ts ← lift (Py.int (dict_get r "notification_timestamp"));
  timestamp ← lift (show_time ts);
  let hostname := dict_get r "host_name" in
  let service := dict_get r "service_display_name" in
  let url := dict_get r "url" in
  let state := state_string (dict_get r "notification_state") in
  if decide (dict_get r "notification_contact_name" ≠ VNone) then
    matched ← lift (re_match (arg_filter args)
                      (dict_get r "notification_contact_name"));
    if matched : bool then
      if counter <? limit then
        output ← lift (Py.join separator
                         [VStr (Py.fmt_02d (counter + 1)); VStr timestamp;
                          state; hostname; service]);
        _ ← print output;
        _ ← (if arg_disable_urls args then mret tt
             else print (url_line url));
        mret (Continue (counter + 1))
      else mret Break
    else mret (Continue counter)
  else mret (Continue counter).

(** The loop, started with [counter]: it ends by running off the end
    of the list, with the final value of [counter], or through
    [break]. *)
Fixpoint text_output_loop (limit counter : Z) (notifications : list row)
  : IO flow :=
  match notifications with
  | [] => mret (Continue counter)
  | r :: rest =>
      f ← text_output_body limit counter r;
      match f with
      | Continue counter' => text_output_loop limit counter' rest
      | Break => mret Break
      end
  end.

(** [text_output] *)
Definition text_output (notifications : list row) (limit : Z) : IO unit :=
  _ ← text_output_loop limit 0 notifications; mret tt.

(** What is computed for every row the loop reaches, before the
    contact name is looked at: the timestamp as text. *)
Definition examined (r : row) : result string :=
  ts ← Py.int (dict_get r "notification_timestamp");
  show_time ts.

(** The summary line of [r] when it is displayed as number [k]. *)
Definition summary (k : Z) (timestamp : string) (r : row) : result string :=
  Py.join separator
    [VStr (Py.fmt_02d k); VStr timestamp;
     state_string (dict_get r "notification_state");
     dict_get r "host_name"; dict_get r "service_display_name"].

(** What the [print]s write once the summary line is built. *)
Definition printed (output : string) (r : row) : list string :=
  (output +:+ newline)
  :: (if arg_disable_urls args then []
      else [url_line (dict_get r "url") +:+ newline]).

(** [show_data] *)
Definition show_data : IO unit :=
  notifs ← data_of_instances (arg_instance args);
  text_output notifs (arg_limit args).

End Pass.

(** *** The specification's reading of the pipeline

    These definitions follow the words of the specification; the
    theorems compare them with the code above. *)

(** The rows the instances send, each with its link, in the order of the
    instances: what [data_of_instances] has to sort. *)
Definition spec_fetched (request : string -> response)
    (instances : list string) : list row :=
  flat_map (fun instance =>
              match request (notifications_url instance) with
              | Json output => add_link instance <$> output
              | _ => []
              end) instances.

(** A row passes the filter: it has a contact name, and the name matches
    the configured pattern. *)
Definition spec_matches (r : row) : bool :=
  match dict_get r "notification_contact_name" with
  | VStr name => arg_filter args name
  | _ => false
  end.

(** The rows to display: the first [limit] rows that pass the filter. *)
Definition spec_selected (limit : Z) (notifications : list row) : list row :=
  take (Z.to_nat limit) (List.filter spec_matches notifications).

(** The text for the rows to display, numbered from [k] on. *)
Fixpoint spec_render (k : Z) (rs : list row) : result (list string) :=
  match rs with
  | [] => Return []
  | r :: rs' =>
      timestamp ← examined r;
      output ← summary k timestamp r;
      rest ← spec_render (k + 1) rs';
      Return (printed output r ++ rest)
  end.

(** A row the loop can process: [int] and [fromtimestamp] accept its
    timestamp, its contact name is absent or a string and, when the name
    matches the filter, its state, host name and service display name are
    strings. *)
Definition renders (r : row) : Prop :=
  (exists timestamp, examined r = Return timestamp)
  /\ match dict_get r "notification_contact_name" with
     | VNone => True
     | VStr name =>
         arg_filter args name = true ->
         exists state host service,
           dict_get r "notification_state" = VStr state
           /\ dict_get r "host_name" = VStr host
           /\ dict_get r "service_display_name" = VStr service
     | _ => False
     end.

(** [wait_for_key]: the prompt is written, then the polling loop runs
    until the timeout, a key press or an interrupt; which of these
    happens is decided by the world and given as [waiting]. *)
Definition wait_for_key (waiting : result unit) (prompt : string)
    (timeout : Z) : IO unit :=
  _ ← write prompt; lift waiting.

Section Main.

(** The answers of the network and the end of the wait, per pass. *)
Variable network : nat -> string -> response.
Variable keyboard : nat -> Z -> result unit.

(** The body of [try] inside [while True]. *)
Definition watch_body (n : nat) : IO unit :=
  _ ← print ansi.clear_screen;
  _ ← show_data (network n);
  wait_for_key (keyboard n (arg_watch_interval args))
    ("Waiting for " +:+ pretty (arg_watch_interval args)
       +:+ "s, press enter to refresh now")
    (arg_watch_interval args).

(** One turn of [while True]. *)
Definition watch_pass (n : nat) : IO unit :=
  try_except_KeyboardInterrupt (watch_body n) (exit 0).

(** [while True], run for at most [fuel] passes; [None] when the loop
    is still running after that. *)
Fixpoint watch_loop (fuel n : nat) (out : stdout)
  : option (result unit * stdout) :=
  match fuel with
  | O => None
  | S fuel' =>
      match watch_pass n out with
      | (Return _, out') => watch_loop fuel' (S n) out'
      | (Raise e, out') => Some (Raise e, out')
      end
  end.

(** The main block after the command line has been read. *)
Definition main (fuel : nat) : option (result unit * stdout) :=
  if arg_watch args then watch_loop fuel 0%nat []
  else Some (show_data (network 0%nat) []).

End Main.

End Script.

(** The exit status of the process: 0 at the end of the script, the code of
    an uncaught [SystemExit], death by SIGINT (130 for the shell) for an
    uncaught [KeyboardInterrupt], 1 after any other uncaught exception. *)
Definition exit_status (r : result unit) : Z :=
  match r with
  | Return _ => 0
  | Raise (SystemExit code) => code
  | Raise KeyboardInterrupt => 130
  | Raise _ => 1
  end.

(** ** A concrete setting for examples *)

(** [datetime.fromtimestamp] on a machine whose local time is UTC: the
    civil date of the day number, years 1 to 9999. *)
Definition utc_fromtimestamp (ts : Z) : result datetime :=
  let days := ts `div` 86400 in
  let secs := ts `mod` 86400 in
  let z := days + 719468 in
  let era := z `div` 146097 in
  let doe := z - era * 146097 in
  let yoe := (doe - doe `div` 1460 + doe `div` 36524 - doe `div` 146096) `div` 365 in
  let doy := doe - (365 * yoe + yoe `div` 4 - yoe `div` 100) in
  let mp := (5 * doy + 2) `div` 153 in
  let d := doy - (153 * mp + 2) `div` 5 + 1 in
  let m := if mp <? 10 then mp + 3 else mp - 9 in
  let y := yoe + era * 400 + (if m <=? 2 then 1 else 0) in
  if (1 <=? y) && (y <=? 9999) then
    Return {| year := y; month := m; day := d; hour := secs `div` 3600;
              minute := (secs `mod` 3600) `div` 60; second := secs `mod` 60 |}
  else Raise ValueError.

(** The default command line: every contact matches [".*"], ten rows. *)
Definition default_args (instances : list string) : Args :=
  {| arg_instance := instances; arg_lookback := "-1 days"; arg_limit := 10;
     arg_filter := fun _ => true; arg_disable_urls := false;
     arg_watch := false; arg_watch_interval := 120 |}.

(** A row as Icinga sends it for a service notification. *)
Definition service_row (ts : value) (host service state contact : string) : row :=
  {[ "notification_timestamp" := ts; "host_name" := VStr host;
     "service_description" := VStr service;
     "service_display_name" := VStr service;
     "notification_state" := VStr state;
     "notification_contact_name" := VStr contact ]}.

(** A row for a host notification: the service fields are null. *)
Definition host_row (ts : value) (host state contact : string) : row :=
  {[ "notification_timestamp" := ts; "host_name" := VStr host;
     "service_description" := VNone;
     "service_display_name" := VNone;
     "notification_state" := VStr state;
     "notification_contact_name" := VStr contact ]}.

(** A row that carries no contact name. *)
Definition no_contact_row (ts : value) (host service state : string) : row :=
  {[ "notification_timestamp" := ts; "host_name" := VStr host;
     "service_description" := VStr service;
     "service_display_name" := VStr service;
     "notification_state" := VStr state ]}.

Definition alice_row : row :=
  service_row (VStr "1600000300") "web01" "http" "2" "alice".

Definition bob_row : row :=
  service_row (VStr "1600000100") "web03" "disk" "1" "bob".

(** Two instances. *)
Definition instance_a : string := "https://icinga-a.example.org".
Definition instance_b : string := "https://icinga-b.example.org".

Definition two_instances : Args := default_args [instance_a; instance_b].

Definition watching : Args :=
  {| arg_instance := [instance_a]; arg_lookback := "-1 days"; arg_limit := 10;
     arg_filter := fun _ => true; arg_disable_urls := false;
     arg_watch := true; arg_watch_interval := 120 |}.

(** A network on which the two instances answer with [a] and [b]. *)
Definition answers (a b : response) (url : string) : response :=
  if String.eqb url (notifications_url two_instances instance_a) then a
  else if String.eqb url (notifications_url two_instances instance_b) then b
  else Failed RequestException.

(** Both instances send one row, with timestamps as strings. *)
Definition string_timestamps : string -> response :=
  answers (Json [bob_row]) (Json [alice_row]).

(** One instance sends its timestamp as a number, the other as a string. *)
Definition mixed_timestamps : string -> response :=
  answers (Json [service_row (VInt 1600000100) "web03" "disk" "1" "bob"])
          (Json [alice_row]).

(** The second instance answers with its login page. *)
Definition login_page : string -> response :=
  answers (Json [alice_row]) NotJson.

(** The user presses Ctrl-C while the first request is under way. *)
Definition interrupted : string -> response :=
  answers (Failed KeyboardInterrupt) (Json []).

(** The command line with [--filter alice]: the pattern matches the names
    that start with ["alice"]. *)
Definition alice_only : Args :=
  {| arg_instance := [instance_a]; arg_lookback := "-1 days"; arg_limit := 10;
     arg_filter := String.prefix "alice"; arg_disable_urls := true;
     arg_watch := false; arg_watch_interval := 120 |}.

(** ** The polling loop of [wait_for_key]

    [wait_for_key] is modelled above by how its wait ends.  Its loop is
    embedded here turn by turn.  What a turn observes comes from the
    world: the value of [time.time() - timeStart], a float and hence a
    rational number, and whether [select] reports standard input as
    readable; or the turn is cut short by Ctrl-C. *)

Inductive tick : Type :=
  | Tick (elapsed : Q) (readable : bool)
  | Sigint.

(** The two [break]s of the loop. *)
Inductive wait_end : Type :=
  | TimedOut      (* the first [if]: the interval is over *)
  | KeyRead.      (* the second [if]: [stdin.read(1)] took one character *)

(** [while True] of [wait_for_key], run over the turns given; [None] when
    the loop is still polling after them. *)
Fixpoint wait_polling (timeout : Z) (ticks : list tick)
  : option (result wait_end) :=
  match ticks with
  | [] => None
  | Sigint :: _ => Some (Raise KeyboardInterrupt)
  | Tick elapsed readable :: rest =>
      if (-1 <? timeout) && Qle_bool (inject_Z timeout) elapsed
      then Some (Return TimedOut)
      else if readable then Some (Return KeyRead)
      else wait_polling timeout rest
  end.

(** How the wait ends, as [wait_for_key] above takes it. *)
Definition waiting_of (o : result wait_end) : result unit :=
  match o with
  | Return _ => Return tt
  | Raise e => Raise e
  end.

(** ** More vocabulary for the properties *)

(** The key of [r] is neither less nor greater than [v]: for [list.sort],
    [r] is equal to the rows with key [v]. *)
Definition same_key (v : value) (r : row) : bool :=
  match Py.lt (sort_by_ts r) v, Py.lt v (sort_by_ts r) with
  | Return false, Return false => true
  | _, _ => false
  end.

(** The number of writes per displayed row. *)
Definition writes_per_row (args : Args) : nat :=
  if arg_disable_urls args then 1%nat else 2%nat.

(** A row whose contact name is a number. *)
Definition numeric_contact_row : row :=
  <["notification_contact_name" := VInt 42]> alice_row.

(** The first instance cannot be reached. *)
Definition unreachable : string -> response :=
  answers (Failed RequestException) (Json [alice_row]).

(** Both instances send two rows; all four have the same timestamp. *)
Definition same_timestamps : string -> response :=
  answers
    (Json [service_row (VStr "1600000300") "web01" "http" "2" "alice";
           service_row (VStr "1600000300") "web02" "http" "1" "alice"])
    (Json [service_row (VStr "1600000300") "web03" "http" "2" "bob";
           service_row (VStr "1600000300") "web04" "http" "0" "bob"]).

(** * Properties *)

(** ** The builtins and the helpers on examples *)

Example state_string_2 :
  state_string (VStr "2") = VStr (Fore.RED +:+ "CRIT" +:+ Fore.RESET).
Proof. reflexivity. Qed.

Example state_string_9 : state_string (VStr "9") = VStr "9".
Proof. reflexivity. Qed.

Example int_examples :
  Py.int (VStr " 1_600 ") = Return 1600 /\ Py.int (VStr "-12") = Return (-12)
  /\ Py.int (VStr "1__0") = Raise ValueError /\ Py.int (VStr "") = Raise ValueError
  /\ Py.int (VStr "12.5") = Raise ValueError /\ Py.int VNone = Raise TypeError.
Proof. vm_compute. repeat split. Qed.

Example fmt_examples :
  Py.fmt_02d 1 = "01" /\ Py.fmt_02d 10 = "10" /\ Py.fmt_02d 100 = "100"
  /\ Py.str (VInt (-5)) = "-5".
Proof. vm_compute. repeat split. Qed.

Example show_time_utc :
  show_time utc_fromtimestamp 1600000000 = Return "2020-09-13 12:26:40"
  /\ show_time utc_fromtimestamp 951782400 = Return "2000-02-29 00:00:00"
  /\ show_time utc_fromtimestamp (-1) = Return "1969-12-31 23:59:59"
  /\ show_time utc_fromtimestamp (10 ^ 12) = Raise ValueError.
Proof. vm_compute. repeat split. Qed.

Lemma dict_get_update k v r : dict_get (dict_update k v r) k = v.
Proof. unfold dict_get, dict_update. by rewrite lookup_insert_eq. Qed.

Lemma dict_get_update_ne k k' v r :
  k ≠ k' -> dict_get (dict_update k v r) k' = dict_get r k'.
Proof. intros. unfold dict_get, dict_update. by rewrite lookup_insert_ne. Qed.

(** A row keeps every field when it gets its link; only ["url"] is set. *)
Lemma add_link_fields instance (r : row) k :
  k ≠ "url" -> dict_get (add_link instance r) k = dict_get r k.
Proof. intros. unfold add_link. by apply dict_get_update_ne. Qed.

Lemma add_link_url instance (r : row) :
  dict_get (add_link instance r) "url" =
  VStr (generate_url instance (dict_get r "host_name")
          (dict_get r "service_description")).
Proof. unfold add_link. apply dict_get_update. Qed.

(** C5: [generate_url i h] is [i/dashboard#!/monitoring/host/show?host=h]
    when no service is given, and [generate_url i h s] is
    [i/dashboard#!/monitoring/service/show?host=h&service=s], for all
    strings [i], [h] and [s]. *)
Theorem generate_url_spec (i h s : string) :
  generate_url i (VStr h) VNone
    = i +:+ "/dashboard#!/monitoring/host/show?host=" +:+ h
  /\ generate_url i (VStr h) (VStr s)
    = i +:+ "/dashboard#!/monitoring/service/show?host=" +:+ h
        +:+ "&service=" +:+ s.
Proof. split; reflexivity. Qed.

Lemma states_lookup_other (s : string) :
  s ≠ "0" -> s ≠ "1" -> s ≠ "2" -> s ≠ "3" -> states !! s = None.
Proof.
  intros H0 H1 H2 H3. unfold states.
  rewrite !lookup_insert_ne by done. by apply lookup_singleton_ne.
Qed.

(** C6: [state_string] maps ["0"] to a green [OK], ["1"] to a yellow
    [WARN], ["2"] to a red [CRIT] and ["3"] to a cyan [UNKN], each closed
    by the reset of the foreground colour; every other value comes back as
    it is. *)
Theorem state_string_spec :
  state_string (VStr "0") = VStr (Fore.GREEN +:+ "OK" +:+ Fore.RESET)
  /\ state_string (VStr "1") = VStr (Fore.YELLOW +:+ "WARN" +:+ Fore.RESET)
  /\ state_string (VStr "2") = VStr (Fore.RED +:+ "CRIT" +:+ Fore.RESET)
  /\ state_string (VStr "3") = VStr (Fore.CYAN +:+ "UNKN" +:+ Fore.RESET)
  /\ forall v : value,
       v ≠ VStr "0" -> v ≠ VStr "1" -> v ≠ VStr "2" -> v ≠ VStr "3" ->
       state_string v = v.
Proof.
  repeat split; try reflexivity.
  intros [| b | n | s] H0 H1 H2 H3; try reflexivity.
  simpl. rewrite states_lookup_other; [done | congruence ..].
Qed.

Lemma state_string_spec_witness :
  state_string (VStr "9") = VStr "9" /\ state_string (VInt 2) = VInt 2
  /\ state_string VNone = VNone.
Proof.
  destruct state_string_spec as (_ & _ & _ & _ & H).
  repeat split; apply H; discriminate.
Defined.

(** ** The printing pass *)

Section TextOutput.

Variable args : Args.
Variable fromtimestamp : Z -> result datetime.

Local Abbreviation body := (text_output_body args fromtimestamp).
Local Abbreviation loop := (text_output_loop args fromtimestamp).

(** One turn of the loop, case by case. *)
Lemma body_cases limit counter r out :
  body limit counter r out =
  match examined fromtimestamp r with
  | Raise e => (Raise e, out)
  | Return timestamp =>
      match dict_get r "notification_contact_name" with
      | VNone => (Return (Continue counter), out)
      | VStr name =>
          if arg_filter args name then
            if counter <? limit then
              match summary (counter + 1) timestamp r with
              | Raise e => (Raise e, out)
              | Return output =>
                  (Return (Continue (counter + 1)),
                   out ++ printed args output r)
              end
            else (Return Break, out)
          else (Return (Continue counter), out)
      | _ => (Raise TypeError, out)
      end
  end.
Proof.
  unfold text_output_body, examined, summary, printed, show_time.
  unfold print, write, lift, mbind, mret, IO_bind, IO_ret, result_bind.
  destruct (Py.int _) as [ts|e]; [|done].
  destruct (fromtimestamp ts) as [d|e]; [|done].
  destruct (dict_get r "notification_contact_name") as [| b | n | name];
    simpl; try done.
  destruct (arg_filter args name); [|done].
  destruct (counter <? limit); [|done].
  destruct (Py.join _ _) as [output|e]; [|done].
  destruct (arg_disable_urls args); simpl; [done|].
  by rewrite <- app_assoc.
Qed.

Lemma loop_cons limit counter r rest out :
  loop limit counter (r :: rest) out =
  match body limit counter r out with
  | (Return (Continue counter'), out') => loop limit counter' rest out'
  | (Return Break, out') => (Return Break, out')
  | (Raise e, out') => (Raise e, out')
  end.
Proof.
  simpl. unfold mbind at 1, IO_bind.
  destruct (body _ _ _ _) as [[[c|]|e] out']; done.
Qed.

(** The loop over [pre ++ post] is the loop over [pre], followed by the
    loop over [post] when [pre] was left at its end. *)
Lemma loop_app limit pre post : forall counter out,
  loop limit counter (pre ++ post) out =
  match loop limit counter pre out with
  | (Return (Continue counter'), out') => loop limit counter' post out'
  | other => other
  end.
Proof.
  induction pre as [|r pre IH]; intros counter out; [done|].
  rewrite <- app_comm_cons, !loop_cons.
  destruct (body _ _ _ _) as [[[c|]|e] out']; [apply IH | done | done].
Qed.

Lemma text_output_loop_eq l limit out :
  text_output args fromtimestamp l limit out =
  match loop limit 0 l out with
  | (Return _, out') => (Return tt, out')
  | (Raise e, out') => (Raise e, out')
  end.
Proof.
  unfold text_output, mbind, IO_bind.
  by destruct (loop _ _ _ _) as [[?|?] ?].
Qed.

(** A row without contact name, once reached, either stops the pass with
    the exception of its timestamp or changes nothing. *)
Lemma loop_skip_no_contact limit counter r rest out :
  dict_get r "notification_contact_name" = VNone ->
  loop limit counter (r :: rest) out =
  match examined fromtimestamp r with
  | Raise e => (Raise e, out)
  | Return _ => loop limit counter rest out
  end.
Proof.
  intros Hc. rewrite loop_cons, body_cases, Hc.
  by destruct (examined _ _).
Qed.

(** C3: a row whose contact name is absent is never printed and never
    counted.  For every list [pre ++ r :: post], limit and filter, the
    pass over the list behaves exactly as the pass over [pre ++ post],
    the list without [r]; or it ends with an exception when [r] is
    reached, and then standard output holds what the rows of [pre]
    produced and nothing else. *)
Theorem no_contact_never_printed pre r post limit out :
  dict_get r "notification_contact_name" = VNone ->
  text_output args fromtimestamp (pre ++ r :: post) limit out
    = text_output args fromtimestamp (pre ++ post) limit out
  \/ exists e counter out',
       loop limit 0 pre out = (Return (Continue counter), out')
       /\ text_output args fromtimestamp (pre ++ r :: post) limit out
          = (Raise e, out').
Proof.
  intros Hc. rewrite !text_output_loop_eq, !loop_app.
  destruct (loop limit 0 pre out) as [[[c|]|e] out'] eqn:Hpre;
    [| by left | by left].
  rewrite loop_skip_no_contact by done.
  destruct (examined _ _) as [ts|e]; [by left|].
  right. by exists e, c, out'.
Qed.

(** C10: the timestamp of every row the loop reaches is converted with
    [int] before the contact name is looked at.  When the loop reaches
    [r], after the rows of [pre], and [int] raises on the timestamp of
    [r], the whole pass ends with that exception, whatever the contact
    name of [r] is, hence also when [r] would not have been displayed. *)
Theorem examined_timestamp_must_convert pre r post limit out counter out' e :
  loop limit 0 pre out = (Return (Continue counter), out') ->
  Py.int (dict_get r "notification_timestamp") = Raise e ->
  text_output args fromtimestamp (pre ++ r :: post) limit out
    = (Raise e, out').
Proof.
  intros Hpre Hint.
  rewrite text_output_loop_eq, loop_app, Hpre, loop_cons, body_cases.
  unfold examined. by rewrite Hint.
Qed.

(** C4, as the code has it: the scan stops at the first row with a
    matching contact name that is reached once [limit] rows have been
    printed.  Nothing behind that row is looked at, so the outcome and the
    output are the same for every tail [post]. *)
Theorem scan_stops_at_next_match pre r post limit out counter out' ts name :
  loop limit 0 pre out = (Return (Continue counter), out') ->
  limit <= counter ->
  examined fromtimestamp r = Return ts ->
  dict_get r "notification_contact_name" = VStr name ->
  arg_filter args name = true ->
  text_output args fromtimestamp (pre ++ r :: post) limit out
    = (Return tt, out').
Proof.
  intros Hpre Hle Hex Hc Hm.
  rewrite text_output_loop_eq, loop_app, Hpre, loop_cons, body_cases.
  rewrite Hex, Hc, Hm.
  by destruct (Z.ltb_spec counter limit); [lia|].
Qed.

(** Once [limit] rows have been printed, nothing more is written. *)
Lemma loop_prints_nothing_at_limit limit l : forall counter out f out',
  limit <= counter ->
  loop limit counter l out = (Return f, out') -> out' = out.
Proof.
  induction l as [|r l IH]; intros counter out f out' Hle.
  - simpl. by intros [= _ <-].
  - rewrite loop_cons, body_cases.
    destruct (examined _ _) as [ts|e]; [|done].
    destruct (dict_get r "notification_contact_name") as [| b | n | name];
      try done.
    + by apply IH.
    + destruct (arg_filter args name); [|by apply IH].
      destruct (Z.ltb_spec counter limit); [lia|]. by intros [= _ <-].
Qed.

End TextOutput.

(** ** The rows displayed are the first [limit] that pass the filter *)

Section Selection.

Variable args : Args.
Variable fromtimestamp : Z -> result datetime.

Local Abbreviation loop := (text_output_loop args fromtimestamp).
Local Abbreviation render := (spec_render args fromtimestamp).

Lemma spec_matches_no_contact r :
  dict_get r "notification_contact_name" = VNone -> spec_matches args r = false.
Proof. unfold spec_matches. by intros ->. Qed.

Lemma spec_matches_name r name :
  dict_get r "notification_contact_name" = VStr name ->
  spec_matches args r = arg_filter args name.
Proof. unfold spec_matches. by intros ->. Qed.

(** The text of a row whose fields are strings. *)
Lemma summary_of_strings k timestamp r state host service :
  dict_get r "notification_state" = VStr state ->
  dict_get r "host_name" = VStr host ->
  dict_get r "service_display_name" = VStr service ->
  exists token,
    state_string (VStr state) = VStr token
    /\ summary k timestamp r
       = Return (Py.fmt_02d k +:+ " | " +:+ timestamp +:+ " | " +:+ token
                 +:+ " | " +:+ host +:+ " | " +:+ service).
Proof.
  intros Hs Hh Hd. unfold summary. rewrite Hs, Hh, Hd.
  assert (exists token, state_string (VStr state) = VStr token) as [token Ht].
  { simpl. destruct (states !! state); eauto. }
  exists token. split; [done|]. by rewrite Ht.
Qed.

(** A pass that ends without exception, started with [counter], has
    written the text of the next [limit - counter] rows that pass the
    filter, numbered from [counter + 1] on. *)
Lemma loop_renders_selected limit l : forall counter out f out',
  loop limit counter l out = (Return f, out') ->
  exists ls,
    render (counter + 1)
      (take (Z.to_nat (limit - counter)) (List.filter (spec_matches args) l))
      = Return ls
    /\ out' = out ++ ls.
Proof.
  induction l as [|r l IH]; intros counter out f out'.
  - simpl. intros [= _ <-]. exists []. by rewrite take_nil, app_nil_r.
  - rewrite loop_cons, body_cases. simpl List.filter.
    destruct (examined _ _) as [ts|e] eqn:Hex; [|done].
    destruct (dict_get r "notification_contact_name")
      as [| b | n | name] eqn:Hc; try done.
    + rewrite (spec_matches_no_contact _ Hc). apply IH.
    + rewrite (spec_matches_name _ _ Hc).
      destruct (arg_filter args name); [|apply IH].
      destruct (Z.ltb_spec counter limit) as [Hlt|Hge].
      * destruct (summary _ _ _) as [output|e] eqn:Hsum; [|done].
        intros Hrest. apply IH in Hrest as (ls & Hls & ->).
        replace (Z.to_nat (limit - counter))
          with (S (Z.to_nat (limit - (counter + 1)))) by lia.
        exists (printed args output r ++ ls). split.
        -- simpl. rewrite Hex. simpl. rewrite Hsum. simpl.
           by rewrite Hls.
        -- by rewrite app_assoc.
      * intros [= _ <-]. exists [].
        replace (Z.to_nat (limit - counter)) with 0%nat by lia.
        by rewrite app_nil_r.
Qed.

(** With rows that render, the pass ends without exception. *)
Lemma loop_returns limit l : forall counter out,
  Forall (renders args fromtimestamp) l ->
  exists f out', loop limit counter l out = (Return f, out').
Proof.
  induction l as [|r l IH]; intros counter out Hall; [by eexists _, _|].
  apply Forall_cons in Hall as [[[ts Hex] Hr] Hall].
  rewrite loop_cons, body_cases, Hex.
  destruct (dict_get r "notification_contact_name") as [| b | n | name];
    try done.
  - by apply IH.
  - destruct (arg_filter args name); [|by apply IH].
    destruct (counter <? limit); [|by eexists _, _].
    destruct Hr as (state & host & service & Hs & Hh & Hd); [done|].
    destruct (summary_of_strings (counter + 1) ts r _ _ _ Hs Hh Hd)
      as (token & _ & ->).
    by apply IH.
Qed.

(** C2, as the code has it: on a list whose rows all render, for every
    limit, [text_output] ends without exception and has printed exactly
    the first [limit] rows whose contact name is present and matches the
    filter, in the order of the list and numbered from 01 on: at most
    [limit] rows. *)
Theorem text_output_prints_first_matching l limit out :
  Forall (renders args fromtimestamp) l ->
  exists ls,
    render 1 (spec_selected args limit l) = Return ls
    /\ text_output args fromtimestamp l limit out = (Return tt, out ++ ls)
    /\ (0 <= limit -> Z.of_nat (length (spec_selected args limit l)) <= limit).
Proof.
  intros Hall. rewrite text_output_loop_eq.
  destruct (loop_returns limit l 0 out Hall) as (f & out' & Hloop).
  rewrite Hloop.
  apply loop_renders_selected in Hloop as (ls & Hls & ->).
  rewrite Z.sub_0_r in Hls. exists ls. repeat split; [done|].
  intros Hl. unfold spec_selected. rewrite length_take. lia.
Qed.

(** A row without service display name cannot be joined into a line. *)
Lemma summary_without_service k timestamp r :
  dict_get r "service_display_name" = VNone ->
  summary k timestamp r = Raise TypeError.
Proof.
  intros Hd. unfold summary, Py.join. rewrite Hd. simpl.
  destruct (state_string _); try done.
  destruct (dict_get r "host_name"); done.
Qed.

End Selection.

(** ** Sorting by timestamp *)

Lemma string_ltb_leb s t : String.ltb s t = true -> String.leb s t = true.
Proof. unfold String.ltb, String.leb. by destruct (String.compare s t). Qed.

Lemma string_ltb_false_leb s t :
  String.ltb s t = false -> String.leb t s = true.
Proof.
  unfold String.ltb, String.leb. rewrite (String.compare_antisym s t).
  by destruct (String.compare t s).
Qed.

Lemma py_lt_true_ge a b : Py.lt a b = Return true -> Py.ge b a = Return true.
Proof.
  unfold Py.lt, Py.ge.
  destruct a as [| [] | x | s], b as [| [] | y | t]; simpl; try done;
    intros [= H]; f_equal; try lia.
  by apply string_ltb_leb.
Qed.

Lemma py_lt_false_ge a b : Py.lt a b = Return false -> Py.ge a b = Return true.
Proof.
  unfold Py.lt, Py.ge.
  destruct a as [| [] | x | s], b as [| [] | y | t]; simpl; try done;
    intros [= H]; f_equal; try lia.
  by apply string_ltb_false_leb.
Qed.

Lemma py_lt_raises a b e : Py.lt a b = Raise e -> e = TypeError.
Proof.
  unfold Py.lt.
  destruct a as [| [] | x | s], b as [| [] | y | t]; simpl; congruence.
Qed.

(** [a < b] is defined exactly for two numbers and for two strings. *)
Lemma py_lt_defined a b :
  (exists r, Py.lt a b = Return r) <->
  (is_Some (Py.as_number a) /\ is_Some (Py.as_number b))
  \/ ((exists s, a = VStr s) /\ (exists t, b = VStr t)).
Proof.
  unfold Py.lt. split.
  - intros [r Hr].
    destruct a as [| [] | x | s], b as [| [] | y | t]; simpl in *;
      try discriminate; eauto.
  - intros [[[x Hx] [y Hy]] | [[s ->] [t ->]]].
    + rewrite Hx, Hy. eauto.
    + simpl. eauto.
Qed.

Section Sorting.

Local Abbreviation insert := (insert_desc sort_by_ts).
Local Abbreviation sort := (sort_reverse sort_by_ts).

Lemma insert_cons x y l :
  insert x (y :: l) =
  match Py.lt (sort_by_ts x) (sort_by_ts y) with
  | Return true =>
      match insert x l with
      | Return l' => Return (y :: l')
      | Raise e => Raise e
      end
  | Return false => Return (x :: y :: l)
  | Raise e => Raise e
  end.
Proof.
  simpl. destruct (Py.lt _ _) as [[]|e]; simpl; try done.
Qed.

Lemma insert_permutation x l : forall l',
  insert x l = Return l' -> l' ≡ₚ x :: l.
Proof.
  induction l as [|y l IH]; intros l'.
  - by intros [= <-].
  - rewrite insert_cons.
    destruct (Py.lt _ _) as [[]|e]; [| by intros [= <-] | done].
    destruct (insert x l) as [l''|e]; [|done].
    intros [= <-]. rewrite (IH l'' eq_refl). apply Permutation_swap.
Qed.

(** Inserting keeps the list in descending order; the new head is the
    old one or the inserted row. *)
Lemma insert_sorted x l : forall l',
  insert x l = Return l' -> Sorted ts_ge l ->
  Sorted ts_ge l' /\ forall z, ts_ge z x -> HdRel ts_ge z l -> HdRel ts_ge z l'.
Proof.
  induction l as [|y l IH]; intros l'.
  - intros [= <-] _. split; [by repeat constructor|]. by constructor.
  - rewrite insert_cons.
    destruct (Py.lt _ _) as [[]|e] eqn:Hlt; [| |done].
    + destruct (insert x l) as [l''|e]; [|done].
      intros [= <-] Hs. apply Sorted_inv in Hs as [Hs Hhd].
      destruct (IH l'' eq_refl Hs) as [Hs' Hhd'].
      split.
      * constructor; [done|]. apply Hhd'; [|done].
        by apply py_lt_true_ge.
      * intros z _ Hz. apply HdRel_inv in Hz. by constructor.
    + intros [= <-] Hs. split.
      * constructor; [done|]. constructor. by apply py_lt_false_ge.
      * intros z Hz _. by constructor.
Qed.

(** Whenever the sort returns, the result is a rearrangement of the list,
    in descending order of the keys. *)
Lemma sort_reverse_sorted l : forall s,
  sort l = Return s -> s ≡ₚ l /\ Sorted ts_ge s.
Proof.
  induction l as [|x l IH]; intros s.
  - intros [= <-]. by split; [|constructor].
  - simpl. destruct (sort l) as [s'|e]; [|done]. simpl.
    intros Hins. destruct (IH s' eq_refl) as [Hp Hs]. split.
    + rewrite (insert_permutation _ _ _ Hins). by constructor.
    + by apply (insert_sorted _ _ _ Hins).
Qed.

Lemma sort_reverse_raises l e : sort l = Raise e -> e = TypeError.
Proof.
  revert e. induction l as [|x l IH]; intros e; [done|].
  simpl. destruct (sort l) as [s'|e']; simpl; [|intros [= <-]; by apply IH].
  clear IH. induction s' as [|y s' IH]; [done|].
  rewrite insert_cons.
  destruct (Py.lt _ _) as [[]|e'] eqn:Hlt.
  - destruct (insert x s') as [l''|e'']; [done|].
    intros [= <-]. by apply IH.
  - done.
  - intros [= <-]. by apply py_lt_raises in Hlt.
Qed.

Lemma comparable_cons x y l :
  (exists r, Py.lt (sort_by_ts x) (sort_by_ts y) = Return r) ->
  y ∈ l -> comparable l -> comparable (x :: l).
Proof.
  intros Hlt Hy [Hn | Hs]; apply py_lt_defined in Hlt.
  - left. constructor; [|done].
    rewrite Forall_forall in Hn. specialize (Hn y Hy).
    destruct Hlt as [[? _] | [_ [t Ht]]]; [done|].
    rewrite Ht in Hn. by destruct Hn.
  - right. constructor; [|done].
    rewrite Forall_forall in Hs. destruct (Hs y Hy) as [t Ht].
    destruct Hlt as [[_ Hy'] | [? _]]; [|done].
    rewrite Ht in Hy'. by destruct Hy'.
Qed.

Lemma comparable_lt x y l :
  comparable l -> x ∈ l -> y ∈ l ->
  exists r, Py.lt (sort_by_ts x) (sort_by_ts y) = Return r.
Proof.
  intros [Hn | Hs] Hx Hy; apply py_lt_defined;
    rewrite Forall_forall in *; [left | right]; eauto.
Qed.

Lemma insert_defined x l :
  (forall y, y ∈ l ->
     exists r, Py.lt (sort_by_ts x) (sort_by_ts y) = Return r) ->
  exists l', insert x l = Return l'.
Proof.
  induction l as [|y l IH]; intros Hlt; [by eexists|].
  rewrite insert_cons.
  destruct (Hlt y) as [[] ->]; [by left | | by eexists].
  destruct IH as [l' ->]; [|by eexists].
  intros z Hz. apply Hlt. by right.
Qed.

(** The sort returns when the keys can be compared with each other. *)
Lemma sort_reverse_defined l : comparable l -> exists s, sort l = Return s.
Proof.
  induction l as [|x l IH]; intros Hc; [by eexists|].
  simpl. destruct IH as [s Hs].
  { destruct Hc as [Hc | Hc]; [left | right]; by apply Forall_inv_tail in Hc. }
  rewrite Hs. simpl. apply insert_defined.
  intros y Hy. apply (comparable_lt x y (x :: l)); [done | by left |].
  right. destruct (sort_reverse_sorted _ _ Hs) as [Hp _]. by rewrite <- Hp.
Qed.

(** It returns in no other case, apart from lists of fewer than two rows,
    on which nothing is compared. *)
Lemma sort_reverse_defined_inv l s :
  sort l = Return s -> (length l <= 1)%nat \/ comparable l.
Proof.
  revert s. induction l as [|x l IH]; intros s; [left; simpl; lia|].
  simpl. destruct (sort l) as [s'|e] eqn:Hs; [|done]. simpl.
  intros Hins. destruct (sort_reverse_sorted _ _ Hs) as [Hp _].
  destruct s' as [|y s'].
  { apply Permutation_nil_l in Hp as <-. left. simpl. lia. }
  right. rewrite insert_cons in Hins.
  assert (exists r, Py.lt (sort_by_ts x) (sort_by_ts y) = Return r) as Hlt.
  { destruct (Py.lt _ _); [by eexists | done]. }
  assert (y ∈ l) as Hy by (rewrite <- Hp; by left).
  destruct (IH _ eq_refl) as [Hlen | Hc].
  - destruct l as [|y' [|]]; simpl in Hlen; try lia; [by inversion Hy|].
    apply list_elem_of_singleton in Hy as ->.
    apply py_lt_defined in Hlt as [[Hx Hy'] | [Hx Hy']]; [left | right];
      by repeat constructor.
  - by apply (comparable_cons x y).
Qed.

End Sorting.

(** ** Fetching and aggregating *)

Section Aggregation.

Variable args : Args.
Variable request : string -> response.

Local Abbreviation url := (notifications_url args).

(** The diagnostic printed when the body of [instance] is not JSON. *)
Local Abbreviation diagnostic instance :=
  (("error decoding json from " +:+ instance +:+ ". Login error?") +:+ newline).

Lemma get_instance_notifications_json instance output out :
  request (url instance) = Json output ->
  get_instance_notifications args request instance out
    = (Return (add_link instance <$> output), out).
Proof. unfold get_instance_notifications. by intros ->. Qed.

Lemma get_instance_notifications_not_json instance out :
  request (url instance) = NotJson ->
  get_instance_notifications args request instance out
    = (Raise (SystemExit 1), out ++ [diagnostic instance]).
Proof.
  unfold get_instance_notifications. intros ->.
  by unfold print, write, exit, raise, mbind, IO_bind.
Qed.

Lemma fetch_all_cons instance rest returns out :
  fetch_all args request (instance :: rest) returns out =
  match get_instance_notifications args request instance out with
  | (Return icinga_output, out') =>
      fetch_all args request rest (returns ++ icinga_output) out'
  | (Raise e, out') => (Raise e, out')
  end.
Proof. done. Qed.

(** When every instance answers with JSON rows, the loop collects them in
    the order of the instances and prints nothing. *)
Lemma fetch_all_json instances : forall returns out,
  (forall i, i ∈ instances -> exists output, request (url i) = Json output) ->
  fetch_all args request instances returns out
    = (Return (returns ++ spec_fetched args request instances), out).
Proof.
  induction instances as [|i instances IH]; intros returns out Hall.
  - simpl. by rewrite app_nil_r.
  - destruct (Hall i) as [output Hi]; [by left|].
    rewrite fetch_all_cons, (get_instance_notifications_json _ _ _ Hi).
    rewrite IH by (intros j Hj; apply Hall; by right).
    simpl. by rewrite Hi, app_assoc.
Qed.

(** The first instance whose body is not JSON ends the loop. *)
Lemma fetch_all_not_json pre i post returns out :
  (forall j, j ∈ pre -> exists output, request (url j) = Json output) ->
  request (url i) = NotJson ->
  fetch_all args request (pre ++ i :: post) returns out
    = (Raise (SystemExit 1), out ++ [diagnostic i]).
Proof.
  revert returns. induction pre as [|j pre IH]; intros returns Hpre Hi.
  - simpl app. by rewrite fetch_all_cons, get_instance_notifications_not_json.
  - destruct (Hpre j) as [output Hj]; [by left|].
    rewrite <- app_comm_cons, fetch_all_cons.
    rewrite (get_instance_notifications_json _ _ _ Hj).
    apply IH; [|done]. intros k Hk. apply Hpre. by right.
Qed.

Lemma data_of_instances_fetch instances out :
  data_of_instances args request instances out =
  match fetch_all args request instances [] out with
  | (Return returns, out') => (sort_reverse sort_by_ts returns, out')
  | (Raise e, out') => (Raise e, out')
  end.
Proof.
  unfold data_of_instances, mbind, IO_bind, lift.
  by destruct (fetch_all _ _ _ _ _) as [[?|?] ?].
Qed.

(** C1, as the code has it: when every instance answers with JSON rows and
    the timestamps of these rows can be compared with each other (all are
    numbers, or all are strings), [data_of_instances] returns the rows of
    all instances, each with every field it came with and its link:
    nothing dropped and nothing merged, rearranged so that for every
    adjacent pair the timestamp of the first is [>=] that of the second,
    under Python's comparison of the raw field values. *)
Theorem data_of_instances_sorted instances out :
  (forall i, i ∈ instances -> exists output, request (url i) = Json output) ->
  comparable (spec_fetched args request instances) ->
  exists sorted,
    data_of_instances args request instances out = (Return sorted, out)
    /\ sorted ≡ₚ spec_fetched args request instances
    /\ Sorted ts_ge sorted
    /\ forall instance r k,
         k ≠ "url" -> dict_get (add_link instance r) k = dict_get r k.
Proof.
  intros Hall Hcmp.
  destruct (sort_reverse_defined _ Hcmp) as [sorted Hs].
  exists sorted. rewrite data_of_instances_fetch, fetch_all_json by done.
  simpl. rewrite Hs.
  destruct (sort_reverse_sorted _ _ Hs) as [Hp Hsorted].
  repeat split; [done | done |]. intros. by apply add_link_fields.
Qed.

(** With two or more rows whose timestamps cannot be compared with each
    other, the sort raises [TypeError] and nothing is returned. *)
Lemma data_of_instances_incomparable instances out :
  (forall i, i ∈ instances -> exists output, request (url i) = Json output) ->
  (2 <= length (spec_fetched args request instances))%nat ->
  ~ comparable (spec_fetched args request instances) ->
  data_of_instances args request instances out = (Raise TypeError, out).
Proof.
  intros Hall Hlen Hcmp.
  rewrite data_of_instances_fetch, fetch_all_json by done. simpl.
  destruct (sort_reverse _ _) as [s|e] eqn:Hs.
  - apply sort_reverse_defined_inv in Hs as [?|?]; [lia | done].
  - by apply sort_reverse_raises in Hs as ->.
Qed.

End Aggregation.

(** ** The whole run *)

Section Run.

Variable args : Args.
Variable fromtimestamp : Z -> result datetime.
Variable network : nat -> string -> response.
Variable keyboard : nat -> Z -> result unit.

Local Abbreviation url := (notifications_url args).
Local Abbreviation diagnostic instance :=
  (("error decoding json from " +:+ instance +:+ ". Login error?") +:+ newline).
Local Abbreviation wbody := (watch_body args fromtimestamp network keyboard).
Local Abbreviation wpass := (watch_pass args fromtimestamp network keyboard).
Local Abbreviation wloop := (watch_loop args fromtimestamp network keyboard).

Lemma show_data_fetch_raises request e out out' :
  fetch_all args request (arg_instance args) [] out = (Raise e, out') ->
  show_data args fromtimestamp request out = (Raise e, out').
Proof.
  intros Hf. unfold show_data, mbind, IO_bind.
  by rewrite data_of_instances_fetch, Hf.
Qed.

Lemma watch_body_show_data_raises n e out out' :
  show_data args fromtimestamp (network n)
    (out ++ [ansi.clear_screen +:+ newline]) = (Raise e, out') ->
  wbody n out = (Raise e, out').
Proof.
  intros Hs. unfold watch_body, print, write, mbind, IO_bind. by rewrite Hs.
Qed.

(** An exception other than [KeyboardInterrupt] leaves the loop as it
    is; [KeyboardInterrupt] leaves it as [SystemExit(0)]. *)
Lemma watch_loop_raises n fuel e out out' :
  wbody n out = (Raise e, out') ->
  wloop (S fuel) n out =
  Some (Raise (if decide (e = KeyboardInterrupt) then SystemExit 0 else e),
        out').
Proof.
  intros Hb. simpl. unfold watch_pass, try_except_KeyboardInterrupt.
  rewrite Hb. by destruct e.
Qed.

(** C7: when the body an instance sends is not JSON (the instances asked
    before it having answered with JSON rows), the pass prints the
    diagnostic that names this instance and nothing else, and the process
    ends at once with exit status 1, in single-run mode and in any pass of
    watch mode. *)
Theorem not_json_is_fatal pre i post n fuel out :
  arg_instance args = pre ++ i :: post ->
  (forall j, j ∈ pre -> exists output, network n (url j) = Json output) ->
  network n (url i) = NotJson ->
  show_data args fromtimestamp (network n) out
    = (Raise (SystemExit 1), out ++ [diagnostic i])
  /\ wloop (S fuel) n out
     = Some (Raise (SystemExit 1),
             out ++ [ansi.clear_screen +:+ newline; diagnostic i])
  /\ (arg_watch args = false -> n = 0%nat ->
      main args fromtimestamp network keyboard fuel
        = Some (Raise (SystemExit 1), [diagnostic i]))
  /\ exit_status (Raise (SystemExit 1)) = 1.
Proof.
  intros Hinst Hpre Hi.
  assert (forall out0, show_data args fromtimestamp (network n) out0
            = (Raise (SystemExit 1), out0 ++ [diagnostic i])) as Hshow.
  { intros out0. apply show_data_fetch_raises.
    rewrite Hinst. by apply fetch_all_not_json. }
  repeat split.
  - apply Hshow.
  - rewrite (watch_loop_raises n fuel (SystemExit 1) out
               (out ++ [ansi.clear_screen +:+ newline; diagnostic i])).
    + done.
    + apply watch_body_show_data_raises. rewrite Hshow.
      by rewrite <- app_assoc.
  - intros Hw ->. unfold main. rewrite Hw. f_equal. apply Hshow.
Qed.

(** C9, as the code has it: in watch mode a [KeyboardInterrupt] raised
    anywhere in a pass of the loop (while the screen is cleared, while the
    instances are asked and the rows printed, or during the wait) ends the
    process with exit status 0. *)
Theorem keyboard_interrupt_in_watch_mode n fuel out out' :
  arg_watch args = true ->
  wbody n out = (Raise KeyboardInterrupt, out') ->
  wloop (S fuel) n out = Some (Raise (SystemExit 0), out')
  /\ (n = 0%nat -> out = [] ->
      main args fromtimestamp network keyboard (S fuel)
        = Some (Raise (SystemExit 0), out'))
  /\ exit_status (Raise (SystemExit 0)) = 0.
Proof.
  intros Hw Hb.
  assert (wloop (S fuel) n out = Some (Raise (SystemExit 0), out')) as Hl
    by (by rewrite (watch_loop_raises _ _ _ _ _ Hb)).
  repeat split; [done|].
  intros -> ->. unfold main. by rewrite Hw.
Qed.

(** Outside the loop nothing catches the interrupt. *)
Lemma keyboard_interrupt_in_single_run fuel out' :
  arg_watch args = false ->
  show_data args fromtimestamp (network 0%nat) [] = (Raise KeyboardInterrupt, out') ->
  main args fromtimestamp network keyboard fuel
    = Some (Raise KeyboardInterrupt, out')
  /\ exit_status (Raise KeyboardInterrupt) = 130.
Proof. intros Hw Hs. unfold main. by rewrite Hw, Hs. Qed.

(** Passes that end normally are followed by the next pass. *)
Lemma watch_loop_next n fuel out out' :
  wbody n out = (Return tt, out') ->
  wloop (S fuel) n out = wloop fuel (S n) out'.
Proof.
  intros Hb. simpl. unfold watch_pass, try_except_KeyboardInterrupt.
  by rewrite Hb.
Qed.

End Run.

(** ** The theorems at concrete inputs *)

Lemma no_contact_never_printed_witness :
  let r := no_contact_row (VStr "1600000200") "web02" "ping" "1" in
  text_output two_instances utc_fromtimestamp [alice_row; r; bob_row] 10 []
    = text_output two_instances utc_fromtimestamp [alice_row; bob_row] 10 []
  \/ exists e counter out',
       text_output_loop two_instances utc_fromtimestamp 10 0 [alice_row] []
         = (Return (Continue counter), out')
       /\ text_output two_instances utc_fromtimestamp [alice_row; r; bob_row] 10 []
          = (Raise e, out').
Proof.
  intros r.
  apply (no_contact_never_printed two_instances utc_fromtimestamp
           [alice_row] r [bob_row] 10 []).
  vm_compute. reflexivity.
Defined.

Lemma examined_timestamp_must_convert_witness :
  let r := no_contact_row (VStr "n/a") "web02" "ping" "1" in
  text_output two_instances utc_fromtimestamp [alice_row; r; bob_row] 10 []
  = (Raise ValueError,
     snd (text_output two_instances utc_fromtimestamp [alice_row] 10 [])).
Proof.
  intros r.
  apply (examined_timestamp_must_convert two_instances utc_fromtimestamp
           [alice_row] r [bob_row] 10 [] 1).
  - vm_compute. reflexivity.
  - vm_compute. reflexivity.
Defined.

(** C4 fails as stated: with a limit of one, the row behind the one
    printed row is still looked at.  It has no contact name and is never
    displayed, yet replacing its timestamp by one that [int] rejects turns
    a normal end into a [ValueError]. *)
Lemma scan_continues_after_limit_counterexample :
  ~ (forall pre r post post' limit out counter out' out'',
       text_output_loop two_instances utc_fromtimestamp limit 0 pre out
         = (Return (Continue counter), out') ->
       counter + 1 = limit ->
       text_output_body two_instances utc_fromtimestamp limit counter r out'
         = (Return (Continue limit), out'') ->
       text_output two_instances utc_fromtimestamp (pre ++ r :: post) limit out
       = text_output two_instances utc_fromtimestamp (pre ++ r :: post') limit out).
Proof.
  intros H.
  specialize (H [] alice_row
                [no_contact_row (VStr "1600000200") "web02" "ping" "1"]
                [no_contact_row (VStr "n/a") "web02" "ping" "1"]
                1 [] 0
                []
                (snd (text_output two_instances utc_fromtimestamp
                        [alice_row] 1 []))).
  assert (fst (text_output two_instances utc_fromtimestamp
                 ([] ++ alice_row
                   :: [no_contact_row (VStr "1600000200") "web02" "ping" "1"])
                 1 []) = Return tt) as Hok by (vm_compute; reflexivity).
  rewrite H in Hok.
  - vm_compute in Hok. discriminate.
  - reflexivity.
  - reflexivity.
  - vm_compute. reflexivity.
Qed.

Lemma scan_stops_at_next_match_witness :
  text_output two_instances utc_fromtimestamp
    [alice_row; bob_row; no_contact_row (VStr "n/a") "web02" "ping" "1"] 1 []
  = (Return tt,
     snd (text_output two_instances utc_fromtimestamp [alice_row] 1 [])).
Proof.
  apply (scan_stops_at_next_match two_instances utc_fromtimestamp
           [alice_row] bob_row
           [no_contact_row (VStr "n/a") "web02" "ping" "1"] 1 [] 1 _
           "2020-09-13 12:28:20" "bob").
  - vm_compute. reflexivity.
  - lia.
  - vm_compute. reflexivity.
  - vm_compute. reflexivity.
  - reflexivity.
Defined.

(** C2 fails as stated: the list is in descending order of its timestamps,
    two of its rows match the filter and the limit is ten, but only the
    first of the two is printed.  The row between them has no contact name
    and a timestamp that [int] rejects, and it ends the pass. *)
Lemma text_output_first_matching_counterexample :
  ~ (forall l limit,
       0 <= limit -> Sorted ts_ge l ->
       exists ls,
         spec_render two_instances utc_fromtimestamp 1
           (spec_selected two_instances limit l) = Return ls
         /\ snd (text_output two_instances utc_fromtimestamp l limit []) = ls).
Proof.
  intros H.
  destruct (H [alice_row;
               no_contact_row (VStr "1600000200.5") "web02" "ping" "1";
               bob_row] 10) as (ls & Hls & Hout).
  - lia.
  - repeat constructor; vm_compute; reflexivity.
  - rewrite <- Hout in Hls. vm_compute in Hls. discriminate.
Qed.

(** A concrete row renders: by evaluation. *)
Ltac solve_renders :=
  split;
  [ eexists; vm_compute; reflexivity
  | vm_compute; first [ exact I | intros _; eexists _, _, _; repeat split ] ].

Lemma text_output_prints_first_matching_witness :
  let l := [alice_row; no_contact_row (VStr "1600000200") "web02" "ping" "1";
            bob_row; alice_row] in
  exists ls,
    spec_render two_instances utc_fromtimestamp 1
      (spec_selected two_instances 2 l) = Return ls
    /\ text_output two_instances utc_fromtimestamp l 2 [] = (Return tt, [] ++ ls)
    /\ (0 <= 2 -> Z.of_nat (length (spec_selected two_instances 2 l)) <= 2).
Proof.
  intros l.
  apply (text_output_prints_first_matching two_instances utc_fromtimestamp
           l 2 []).
  unfold l. repeat (apply Forall_cons_2; [solve_renders|]).
  apply Forall_nil_2.
Defined.

Example sequence_numbers :
  Forall (fun k => String.length (Py.fmt_02d k) = 2%nat) (seqZ 1 99)
  /\ Py.fmt_02d 100 = "100".
Proof. split; [|reflexivity]. vm_compute. repeat constructor. Qed.

(** C8: a host notification, whose service display name is null, cannot be
    printed.  [generate_url] gives it its host link, but [join] raises
    [TypeError] on the missing name: the pass ends there and nothing is
    written for the row. *)
Theorem host_notification_is_not_printed :
  let r := add_link instance_a (host_row (VStr "1600000000") "web01" "1" "alice") in
  dict_get r "url"
    = VStr (instance_a +:+ "/dashboard#!/monitoring/host/show?host=web01")
  /\ text_output two_instances utc_fromtimestamp [r] 10 [] = (Raise TypeError, [])
  /\ text_output two_instances utc_fromtimestamp [alice_row; r; bob_row] 10 []
     = (Raise TypeError,
        snd (text_output two_instances utc_fromtimestamp [alice_row] 10 [])).
Proof. vm_compute. repeat split. Qed.

(** C1 fails as stated: one instance sends its timestamp as a number, the
    other as a string, and the sort raises [TypeError] instead of
    returning a list. *)
Lemma data_of_instances_mixed_timestamps_counterexample :
  ~ (forall (request : string -> response) instances,
       exists sorted out,
         data_of_instances two_instances request instances []
           = (Return sorted, out)
         /\ Sorted ts_ge sorted).
Proof.
  intros H.
  destruct (H mixed_timestamps [instance_a; instance_b])
    as (sorted & out & Hd & _).
  vm_compute in Hd. discriminate.
Qed.

Lemma data_of_instances_sorted_witness :
  exists sorted,
    data_of_instances two_instances string_timestamps
      [instance_a; instance_b] [] = (Return sorted, [])
    /\ sorted ≡ₚ spec_fetched two_instances string_timestamps
                   [instance_a; instance_b]
    /\ Sorted ts_ge sorted
    /\ forall instance r k,
         k ≠ "url" -> dict_get (add_link instance r) k = dict_get r k.
Proof.
  apply (data_of_instances_sorted two_instances string_timestamps
           [instance_a; instance_b] []).
  - intros i Hi. apply list_elem_of_In in Hi. simpl in Hi.
    destruct Hi as [<- | [<- | []]]; eexists; vm_compute; reflexivity.
  - right. repeat constructor; eexists; vm_compute; reflexivity.
Defined.

Example data_of_instances_order :
  (fun r => dict_get r "host_name") <$>
    match fst (data_of_instances two_instances string_timestamps
                 [instance_a; instance_b] []) with
    | Return l => l
    | Raise _ => []
    end
  = [VStr "web01"; VStr "web03"].
Proof. vm_compute. reflexivity. Qed.

Lemma not_json_is_fatal_witness :
  let diagnostic :=
    ("error decoding json from " +:+ instance_b +:+ ". Login error?")
      +:+ newline in
  show_data two_instances utc_fromtimestamp login_page []
    = (Raise (SystemExit 1), [] ++ [diagnostic])
  /\ watch_loop two_instances utc_fromtimestamp (fun _ => login_page)
       (fun _ _ => Return tt) 1 0 []
     = Some (Raise (SystemExit 1),
             [] ++ [ansi.clear_screen +:+ newline; diagnostic])
  /\ (arg_watch two_instances = false -> 0%nat = 0%nat ->
      main two_instances utc_fromtimestamp (fun _ => login_page)
        (fun _ _ => Return tt) 0
        = Some (Raise (SystemExit 1), [diagnostic]))
  /\ exit_status (Raise (SystemExit 1)) = 1.
Proof.
  intros diagnostic.
  apply (not_json_is_fatal two_instances utc_fromtimestamp
           (fun _ => login_page) (fun _ _ => Return tt)
           [instance_a] instance_b [] 0 0 []).
  - reflexivity.
  - intros j Hj. apply list_elem_of_In in Hj. simpl in Hj.
    destruct Hj as [<- | []]. eexists. vm_compute. reflexivity.
  - vm_compute. reflexivity.
Defined.

(** C9 fails as stated: in single-run mode nothing catches the interrupt.
    The user presses Ctrl-C during the first request; the exception leaves
    the script uncaught and the exit status is not 0. *)
Lemma keyboard_interrupt_single_run_counterexample :
  arg_watch two_instances = false
  /\ main two_instances utc_fromtimestamp (fun _ => interrupted)
       (fun _ _ => Return tt) 1
     = Some (Raise KeyboardInterrupt, [])
  /\ exit_status (Raise KeyboardInterrupt) ≠ 0.
Proof. vm_compute. repeat split. discriminate. Qed.

Lemma keyboard_interrupt_in_watch_mode_witness :
  watch_loop watching utc_fromtimestamp (fun _ => interrupted)
    (fun _ _ => Return tt) 1 0 []
    = Some (Raise (SystemExit 0), [ansi.clear_screen +:+ newline])
  /\ (0%nat = 0%nat -> @nil string = [] ->
      main watching utc_fromtimestamp (fun _ => interrupted)
        (fun _ _ => Return tt) 1
        = Some (Raise (SystemExit 0), [ansi.clear_screen +:+ newline]))
  /\ exit_status (Raise (SystemExit 0)) = 0.
Proof.
  apply (keyboard_interrupt_in_watch_mode watching utc_fromtimestamp
           (fun _ => interrupted) (fun _ _ => Return tt) 0 0 []).
  - reflexivity.
  - vm_compute. reflexivity.
Defined.

(** The interrupt during the wait of the third pass. *)
Example keyboard_interrupt_during_wait :
  exists out,
    main watching utc_fromtimestamp (fun _ => answers (Json []) (Json []))
      (fun n _ => if (n <? 2)%nat then Return tt else Raise KeyboardInterrupt)
      5 = Some (Raise (SystemExit 0), out)
    /\ length out = 6%nat.
Proof. eexists. vm_compute. split; reflexivity. Qed.

(** ** The scenarios of the specification *)

(** Two instances with one row each: the later row, of the second
    instance, is shown first; both are printed. *)
Example scenario_two_instances :
  exists ls,
    spec_render two_instances utc_fromtimestamp 1
      [add_link instance_b alice_row; add_link instance_a bob_row] = Return ls
    /\ show_data two_instances utc_fromtimestamp string_timestamps []
       = (Return tt, ls).
Proof. eexists. vm_compute. split; reflexivity. Qed.

(** Fifteen matching rows and a limit of ten: ten rows are printed, with
    the numbers 01 to 10. *)
Example scenario_limit :
  exists ls,
    spec_render alice_only utc_fromtimestamp 1 (replicate 10 alice_row)
      = Return ls
    /\ text_output alice_only utc_fromtimestamp (replicate 15 alice_row) 10 []
       = (Return tt, ls)
    /\ (fun line => substring 0 2 line) <$> ls
       = ["01"; "02"; "03"; "04"; "05"; "06"; "07"; "08"; "09"; "10"].
Proof. eexists. vm_compute. repeat split. Qed.

(** Rows for alice and for bob under [--filter alice]: only the rows of
    alice appear, in the order of the list. *)
Example scenario_filter :
  exists ls,
    spec_render alice_only utc_fromtimestamp 1 [alice_row; alice_row] = Return ls
    /\ text_output alice_only utc_fromtimestamp
         [alice_row; bob_row; alice_row; bob_row] 10 []
       = (Return tt, ls).
Proof. eexists. vm_compute. split; reflexivity. Qed.

(** Timestamps that are strings are ordered as strings, not as numbers:
    ["999999999"] comes before ["1000000000"]. *)
Example strings_sort_by_code_point :
  (fun r => dict_get r "notification_timestamp") <$>
    match sort_reverse sort_by_ts
            [service_row (VStr "1000000000") "web01" "http" "2" "alice";
             service_row (VStr "999999999") "web01" "http" "0" "alice"] with
    | Return l => l
    | Raise _ => []
    end
  = [VStr "999999999"; VStr "1000000000"].
Proof. vm_compute. reflexivity. Qed.

(** * Further properties of the code *)

(** ** The printing pass, whatever the rows are *)

Section MorePrinting.

Variable args : Args.
Variable fromtimestamp : Z -> result datetime.

Local Abbreviation loop := (text_output_loop args fromtimestamp).
Local Abbreviation render := (spec_render args fromtimestamp).

Lemma loop_skip_non_matching limit counter r rest out name :
  dict_get r "notification_contact_name" = VStr name ->
  arg_filter args name = false ->
  loop limit counter (r :: rest) out =
  match examined fromtimestamp r with
  | Raise e => (Raise e, out)
  | Return _ => loop limit counter rest out
  end.
Proof.
  intros Hc Hm. rewrite loop_cons, body_cases, Hc, Hm.
  by destruct (examined _ _).
Qed.

(** A row whose contact name does not match the filter is neither printed
    nor counted: the pass over [pre ++ r :: post] behaves as the pass over
    [pre ++ post], or it ends with an exception when [r] is reached, with
    nothing written for [r]. *)
Theorem non_matching_never_printed pre r post limit out name :
  dict_get r "notification_contact_name" = VStr name ->
  arg_filter args name = false ->
  text_output args fromtimestamp (pre ++ r :: post) limit out
    = text_output args fromtimestamp (pre ++ post) limit out
  \/ exists e counter out',
       loop limit 0 pre out = (Return (Continue counter), out')
       /\ text_output args fromtimestamp (pre ++ r :: post) limit out
          = (Raise e, out').
Proof.
  intros Hc Hm. rewrite !text_output_loop_eq, !loop_app.
  destruct (loop limit 0 pre out) as [[[c|]|e] out'] eqn:Hpre;
    [| by left | by left].
  rewrite (loop_skip_non_matching _ _ _ _ _ _ Hc Hm).
  destruct (examined _ _) as [ts|e]; [by left|].
  right. by exists e, c, out'.
Qed.

(** A contact name that is present but not a string ends the pass with
    [TypeError] as soon as its row is reached, whatever the filter and the
    limit are: [pattern.match] takes strings only. *)
Theorem non_string_contact_raises pre r post limit out counter out' ts :
  loop limit 0 pre out = (Return (Continue counter), out') ->
  examined fromtimestamp r = Return ts ->
  dict_get r "notification_contact_name" ≠ VNone ->
  (forall name, dict_get r "notification_contact_name" ≠ VStr name) ->
  text_output args fromtimestamp (pre ++ r :: post) limit out
    = (Raise TypeError, out').
Proof.
  intros Hpre Hex Hnone Hstr.
  rewrite text_output_loop_eq, loop_app, Hpre, loop_cons, body_cases, Hex.
  destruct (dict_get r "notification_contact_name") as [| b | n | name];
    try done.
  by destruct (Hstr name).
Qed.

(** Whatever the rows are and however the pass ends, what it has written
    is the text of a prefix of the rows to display, numbered from
    [counter + 1] on. *)
Lemma loop_writes_prefix limit l : forall counter out,
  exists shown ls,
    shown `prefix_of`
      take (Z.to_nat (limit - counter)) (List.filter (spec_matches args) l)
    /\ render (counter + 1) shown = Return ls
    /\ snd (loop limit counter l out) = out ++ ls.
Proof.
  induction l as [|r l IH]; intros counter out.
  - exists [], []. simpl. rewrite take_nil, app_nil_r. by repeat split.
  - assert (forall n rs, exists shown ls,
              shown `prefix_of` take n rs
              /\ render (counter + 1) shown = Return ls
              /\ out = out ++ ls) as Hstop.
    { intros. exists [], []. rewrite app_nil_r.
      split; [apply prefix_nil | by split]. }
    rewrite loop_cons, body_cases. simpl List.filter.
    destruct (examined _ _) as [ts|e] eqn:Hex; [|apply Hstop].
    destruct (dict_get r "notification_contact_name")
      as [| b | n | name] eqn:Hc; try apply Hstop.
    + rewrite (spec_matches_no_contact _ _ Hc). apply IH.
    + rewrite (spec_matches_name _ _ _ Hc).
      destruct (arg_filter args name); [|apply IH].
      destruct (Z.ltb_spec counter limit) as [Hlt|Hge]; [|apply Hstop].
      destruct (summary _ _ _) as [output|e] eqn:Hsum; [|apply Hstop].
      destruct (IH (counter + 1) (out ++ printed args output r))
        as (shown & ls & Hpre & Hls & Hout).
      replace (Z.to_nat (limit - counter))
        with (S (Z.to_nat (limit - (counter + 1)))) by lia.
      exists (r :: shown), (printed args output r ++ ls). repeat split.
      * simpl. by apply prefix_cons.
      * simpl. rewrite Hex. simpl. rewrite Hsum. simpl. by rewrite Hls.
      * rewrite Hout. by rewrite app_assoc.
Qed.

(** [text_output] never prints anything but the first [limit] matching
    rows, in their order and numbered from 01 on; this holds for every
    list and also when the pass ends with an exception, in which case the
    rows printed are a prefix of those rows. *)
Theorem text_output_writes_prefix l limit out :
  exists shown ls,
    shown `prefix_of` spec_selected args limit l
    /\ render 1 shown = Return ls
    /\ snd (text_output args fromtimestamp l limit out) = out ++ ls.
Proof.
  destruct (loop_writes_prefix limit l 0 out) as (shown & ls & Hp & Hls & Ho).
  exists shown, ls. rewrite Z.sub_0_r in Hp. repeat split; [done | done |].
  rewrite text_output_loop_eq, <- Ho.
  by destruct (text_output_loop _ _ _ _ _ _) as [[?|?] ?].
Qed.

(** With a limit of zero or less nothing is printed, whatever the rows
    are and however the pass ends. *)
Theorem text_output_nonpositive_limit l limit out :
  limit <= 0 ->
  snd (text_output args fromtimestamp l limit out) = out.
Proof.
  intros Hl.
  destruct (loop_writes_prefix limit l 0 out) as (shown & ls & Hp & Hls & Ho).
  replace (Z.to_nat (limit - 0)) with 0%nat in Hp by lia.
  rewrite take_0 in Hp. apply prefix_nil_inv in Hp as ->.
  simpl in Hls. injection Hls as <-. rewrite app_nil_r in Ho.
  rewrite text_output_loop_eq.
  by destruct (text_output_loop _ _ _ _ _ _) as [[?|?] ?].
Qed.

Lemma spec_render_length rs : forall k ls,
  render k rs = Return ls ->
  length ls = (writes_per_row args * length rs)%nat.
Proof.
  induction rs as [|r rs IH]; intros k ls.
  - simpl. intros [= <-]. simpl. lia.
  - simpl. destruct (examined _ _) as [ts|e]; [|done]. simpl.
    destruct (summary _ _ _) as [output|e]; [|done]. simpl.
    destruct (render (k + 1) rs) as [rest|e] eqn:Hrest; [|done]. simpl.
    intros [= <-]. specialize (IH _ _ Hrest).
    unfold printed, writes_per_row in *.
    destruct (arg_disable_urls args); simpl; lia.
Qed.

(** On rows that render, a pass writes two lines per displayed row, the
    summary and the link, and one line per displayed row under
    [--disable-urls]; the number of displayed rows is the number of
    matching rows, cut at the limit. *)
Theorem text_output_line_count l limit out :
  Forall (renders args fromtimestamp) l ->
  0 <= limit ->
  exists ls,
    text_output args fromtimestamp l limit out = (Return tt, out ++ ls)
    /\ length ls
       = (writes_per_row args
          * (Z.to_nat limit `min` length (List.filter (spec_matches args) l)))%nat.
Proof.
  intros Hall Hl. rewrite text_output_loop_eq.
  destruct (loop_returns args fromtimestamp limit l 0 out Hall)
    as (f & out' & Hloop).
  rewrite Hloop.
  apply loop_renders_selected in Hloop as (ls & Hls & ->).
  exists ls. split; [done|].
  rewrite (spec_render_length _ _ _ Hls), length_take, Z.sub_0_r. done.
Qed.

End MorePrinting.

(** ** Rows with equal timestamps *)

Lemma string_compare_refl s : String.compare s s = Eq.
Proof.
  pose proof (String.compare_antisym s s) as H.
  by destruct (String.compare s s).
Qed.

Lemma string_ltb_neither s u :
  String.ltb s u = false -> String.ltb u s = false -> s = u.
Proof.
  unfold String.ltb. rewrite (String.compare_antisym u s).
  destruct (String.compare s u) eqn:Hsu; simpl; try done.
  intros _ _. by apply String.compare_eq_iff.
Qed.

(** Two keys that both equal [v] for the sort are not in strict order. *)
Lemma same_key_not_lt v x y :
  same_key v x = true -> same_key v y = true ->
  Py.lt (sort_by_ts x) (sort_by_ts y) ≠ Return true.
Proof.
  unfold same_key, Py.lt.
  destruct (sort_by_ts x) as [| [] | a | s], v as [| [] | c | u]; simpl;
    try done;
    destruct (sort_by_ts y) as [| [] | b | t]; simpl; try done;
    repeat match goal with
           | |- context [(?m <? ?n)] => destruct (Z.ltb_spec m n)
           end; try done; try lia.
  destruct (String.ltb s u) eqn:Hsu; [done|].
  destruct (String.ltb u s) eqn:Hus; [done|].
  destruct (String.ltb t u) eqn:Htu; [done|].
  destruct (String.ltb u t) eqn:Hut; [done|].
  intros _ _.
  rewrite (string_ltb_neither _ _ Hsu Hus), (string_ltb_neither _ _ Htu Hut).
  unfold String.ltb. by rewrite string_compare_refl.
Qed.

(** Inserting [x] puts it in front of the rows that equal it. *)
Lemma insert_same_key v x l : forall l',
  insert_desc sort_by_ts x l = Return l' ->
  List.filter (same_key v) l' = List.filter (same_key v) (x :: l).
Proof.
  induction l as [|y l IH]; intros l'.
  - by intros [= <-].
  - rewrite insert_cons.
    destruct (Py.lt _ _) as [[]|e] eqn:Hlt; [| by intros [= <-] | done].
    destruct (insert_desc sort_by_ts x l) as [l''|e]; [|done].
    intros [= <-]. specialize (IH _ eq_refl). simpl in *.
    destruct (same_key v y) eqn:Hy; [|done].
    destruct (same_key v x) eqn:Hx; [|by rewrite IH].
    by destruct (same_key_not_lt v x y Hx Hy).
Qed.

Lemma sort_reverse_same_key v l : forall s,
  sort_reverse sort_by_ts l = Return s ->
  List.filter (same_key v) s = List.filter (same_key v) l.
Proof.
  induction l as [|x l IH]; intros s.
  - by intros [= <-].
  - simpl. destruct (sort_reverse sort_by_ts l) as [s'|e]; [|done]. simpl.
    intros Hins. rewrite (insert_same_key v _ _ _ Hins). simpl.
    by rewrite (IH s' eq_refl).
Qed.

Section MoreAggregation.

Variable args : Args.
Variable request : string -> response.

Local Abbreviation url := (notifications_url args).
Local Abbreviation fetched := (spec_fetched args request).

(** The sort is stable although it is reversed: the rows whose timestamps
    are equal come out in the order in which they were fetched, that is
    in the order of the instances on the command line and, within an
    instance, in the order of its answer. *)
Theorem data_of_instances_stable instances out :
  (forall i, i ∈ instances -> exists output, request (url i) = Json output) ->
  comparable (fetched instances) ->
  exists sorted,
    data_of_instances args request instances out = (Return sorted, out)
    /\ forall v,
         List.filter (same_key v) sorted
         = List.filter (same_key v) (fetched instances).
Proof.
  intros Hall Hcmp.
  destruct (sort_reverse_defined _ Hcmp) as [sorted Hs].
  exists sorted. rewrite data_of_instances_fetch, fetch_all_json by done.
  simpl. rewrite Hs. split; [done|].
  intros v. by apply sort_reverse_same_key.
Qed.

(** What [get_instance_notifications] gives for an answer of JSON rows:
    as many rows, in the same order, nothing printed; each row has the
    fields it came with, and under ["url"] the link made from its
    [host_name] and [service_description], which replaces a ["url"] the
    instance may have sent itself. *)
Theorem get_instance_notifications_links instance output out :
  request (url instance) = Json output ->
  exists rows,
    get_instance_notifications args request instance out = (Return rows, out)
    /\ length rows = length output
    /\ forall k (r : row), output !! k = Some r ->
         exists r' : row,
           rows !! k = Some r'
           /\ r' !! "url"
              = Some (VStr (generate_url instance (dict_get r "host_name")
                              (dict_get r "service_description")))
           /\ forall key, key ≠ "url" -> r' !! key = r !! key.
Proof.
  intros Hreq. exists (add_link instance <$> output).
  rewrite (get_instance_notifications_json _ _ _ _ _ Hreq).
  split; [done|]. split; [by rewrite length_fmap|].
  intros k r Hk. exists (add_link instance r).
  rewrite list_lookup_fmap, Hk. split; [done|].
  unfold add_link, dict_update. split.
  - by rewrite lookup_insert_eq.
  - intros key Hkey. by rewrite lookup_insert_ne.
Qed.

(** A request that fails is not handled: the exception of the first
    instance that cannot be asked ends [data_of_instances], nothing is
    printed, and the rows already fetched are dropped. *)
Theorem request_failure_propagates pre i post e out :
  (forall j, j ∈ pre -> exists output, request (url j) = Json output) ->
  request (url i) = Failed e ->
  data_of_instances args request (pre ++ i :: post) out = (Raise e, out).
Proof.
  intros Hpre Hi. rewrite data_of_instances_fetch.
  assert (forall returns,
            fetch_all args request (pre ++ i :: post) returns out
            = (Raise e, out)) as ->; [|done].
  induction pre as [|j pre IH]; intros returns.
  - simpl app. rewrite fetch_all_cons.
    unfold get_instance_notifications. by rewrite Hi.
  - destruct (Hpre j) as [output Hj]; [by left|].
    rewrite <- app_comm_cons, fetch_all_cons.
    rewrite (get_instance_notifications_json _ _ _ _ _ Hj).
    apply IH. intros k Hk. apply Hpre. by right.
Qed.

End MoreAggregation.

(** ** One pass from the requests to the output *)

Section Pipeline.

Variable args : Args.
Variable fromtimestamp : Z -> result datetime.
Variable request : string -> response.

Local Abbreviation url := (notifications_url args).
Local Abbreviation fetched := (spec_fetched args request (arg_instance args)).

(** [show_data] end to end: when every instance answers with JSON rows,
    the timestamps can be compared with each other and the rows render,
    the pass ends without exception and prints the first [limit] matching
    rows of the fetched rows in descending order of their timestamps. *)
Theorem show_data_prints_latest out :
  (forall i, i ∈ arg_instance args ->
     exists output, request (url i) = Json output) ->
  comparable fetched ->
  Forall (renders args fromtimestamp) fetched ->
  exists sorted ls,
    sorted ≡ₚ fetched
    /\ Sorted ts_ge sorted
    /\ spec_render args fromtimestamp 1
         (spec_selected args (arg_limit args) sorted) = Return ls
    /\ show_data args fromtimestamp request out = (Return tt, out ++ ls).
Proof.
  intros Hall Hcmp Hren.
  destruct (sort_reverse_defined _ Hcmp) as [sorted Hs].
  destruct (sort_reverse_sorted _ _ Hs) as [Hp Hsorted].
  assert (Forall (renders args fromtimestamp) sorted) as Hren'
    by (by rewrite Hp).
  destruct (loop_returns args fromtimestamp (arg_limit args) sorted 0 out Hren')
    as (f & out' & Hloop).
  pose proof Hloop as Hloop'.
  apply loop_renders_selected in Hloop' as (ls & Hls & ->).
  rewrite Z.sub_0_r in Hls.
  exists sorted, ls. repeat split; [done | done | done |].
  unfold show_data, mbind, IO_bind.
  rewrite data_of_instances_fetch, fetch_all_json by done.
  simpl. rewrite Hs. by rewrite text_output_loop_eq, Hloop.
Qed.

(** Fetching and sorting come before any printing: when the timestamps of
    two or more fetched rows cannot be compared with each other, the pass
    ends with [TypeError] and not one row has been printed. *)
Theorem show_data_incomparable out :
  (forall i, i ∈ arg_instance args ->
     exists output, request (url i) = Json output) ->
  (2 <= length fetched)%nat ->
  ~ comparable fetched ->
  show_data args fromtimestamp request out = (Raise TypeError, out).
Proof.
  intros Hall Hlen Hcmp. unfold show_data, mbind, IO_bind.
  by rewrite (data_of_instances_incomparable _ _ _ _ Hall Hlen Hcmp).
Qed.

End Pipeline.

(** ** The watch loop and the wait *)

Section MoreRun.

Variable args : Args.
Variable fromtimestamp : Z -> result datetime.
Variable network : nat -> string -> response.
Variable keyboard : nat -> Z -> result unit.

Local Abbreviation wbody := (watch_body args fromtimestamp network keyboard).
Local Abbreviation wloop := (watch_loop args fromtimestamp network keyboard).



End MoreRun.

(** With a negative interval the first test of the loop never holds: the
    wait does not end by itself, only a key or Ctrl-C ends it. *)
Theorem wait_negative_never_times_out timeout ticks :
  timeout <= -1 ->
  wait_polling timeout ticks ≠ Some (Return TimedOut).
Proof.
  intros Ht. induction ticks as [|[elapsed readable|] ticks IH]; try done.
  simpl. destruct (Z.ltb_spec (-1) timeout); [lia|]. simpl.
  by destruct readable.
Qed.

(** With an interval of zero or more the wait is over, one way or another,
    at the latest in the turn in which the time passed has reached the
    interval. *)
Theorem wait_ends_by_interval timeout ticks elapsed readable :
  0 <= timeout ->
  Tick elapsed readable ∈ ticks ->
  Qle_bool (inject_Z timeout) elapsed = true ->
  exists o, wait_polling timeout ticks = Some o.
Proof.
  intros Ht Hin Hle.
  induction ticks as [|[e r|] ticks IH]; [by inversion Hin | | by eexists].
  simpl. destruct ((-1 <? timeout) && Qle_bool (inject_Z timeout) e) eqn:Hexp;
    [by eexists|].
  destruct r; [by eexists|].
  apply IH. apply elem_of_cons in Hin as [[= -> ->] | Hin]; [|done].
  rewrite Hle, andb_true_r in Hexp. apply Z.ltb_ge in Hexp. lia.
Qed.

(** ** The further properties at concrete inputs *)

Lemma non_matching_never_printed_witness :
  text_output alice_only utc_fromtimestamp [alice_row; bob_row; alice_row] 10 []
    = text_output alice_only utc_fromtimestamp [alice_row; alice_row] 10 []
  \/ exists e counter out',
       text_output_loop alice_only utc_fromtimestamp 10 0 [alice_row] []
         = (Return (Continue counter), out')
       /\ text_output alice_only utc_fromtimestamp
            [alice_row; bob_row; alice_row] 10 []
          = (Raise e, out').
Proof.
  apply (non_matching_never_printed alice_only utc_fromtimestamp
           [alice_row] bob_row [alice_row] 10 [] "bob").
  - vm_compute. reflexivity.
  - vm_compute. reflexivity.
Defined.

Lemma non_string_contact_raises_witness :
  text_output two_instances utc_fromtimestamp
    [alice_row; numeric_contact_row; bob_row] 10 []
  = (Raise TypeError,
     snd (text_output two_instances utc_fromtimestamp [alice_row] 10 [])).
Proof.
  apply (non_string_contact_raises two_instances utc_fromtimestamp
           [alice_row] numeric_contact_row [bob_row] 10 [] 1 _
           "2020-09-13 12:31:40").
  - vm_compute. reflexivity.
  - vm_compute. reflexivity.
  - vm_compute. discriminate.
  - intros name. vm_compute. discriminate.
Defined.

Lemma text_output_nonpositive_limit_witness :
  snd (text_output two_instances utc_fromtimestamp
         [alice_row; numeric_contact_row; bob_row] 0 []) = [].
Proof.
  apply (text_output_nonpositive_limit two_instances utc_fromtimestamp
           [alice_row; numeric_contact_row; bob_row] 0 []).
  lia.
Defined.

Lemma text_output_line_count_witness :
  let l := [alice_row; bob_row; alice_row] in
  exists ls,
    text_output alice_only utc_fromtimestamp l 10 [] = (Return tt, [] ++ ls)
    /\ length ls
       = (writes_per_row alice_only
          * (Z.to_nat 10 `min` length (List.filter (spec_matches alice_only) l)))%nat.
Proof.
  intros l.
  apply (text_output_line_count alice_only utc_fromtimestamp l 10 []).
  - unfold l. repeat (apply Forall_cons_2; [solve_renders|]).
    apply Forall_nil_2.
  - lia.
Defined.

Lemma data_of_instances_stable_witness :
  exists sorted,
    data_of_instances two_instances same_timestamps
      [instance_a; instance_b] [] = (Return sorted, [])
    /\ forall v,
         List.filter (same_key v) sorted
         = List.filter (same_key v)
             (spec_fetched two_instances same_timestamps
                [instance_a; instance_b]).
Proof.
  apply (data_of_instances_stable two_instances same_timestamps
           [instance_a; instance_b] []).
  - intros i Hi. apply list_elem_of_In in Hi. simpl in Hi.
    destruct Hi as [<- | [<- | []]]; eexists; vm_compute; reflexivity.
  - right. repeat constructor; eexists; vm_compute; reflexivity.
Defined.

Example equal_timestamps_keep_fetch_order :
  (fun r => dict_get r "host_name") <$>
    match fst (data_of_instances two_instances same_timestamps
                 [instance_a; instance_b] []) with
    | Return l => l
    | Raise _ => []
    end
  = [VStr "web01"; VStr "web02"; VStr "web03"; VStr "web04"].
Proof. vm_compute. reflexivity. Qed.

Lemma get_instance_notifications_links_witness :
  exists rows,
    get_instance_notifications two_instances string_timestamps instance_a []
      = (Return rows, [])
    /\ length rows = length [bob_row]
    /\ forall k (r : row), [bob_row] !! k = Some r ->
         exists r' : row,
           rows !! k = Some r'
           /\ r' !! "url"
              = Some (VStr (generate_url instance_a (dict_get r "host_name")
                              (dict_get r "service_description")))
           /\ forall key, key ≠ "url" -> r' !! key = r !! key.
Proof.
  apply (get_instance_notifications_links two_instances string_timestamps
           instance_a [bob_row] []).
  vm_compute. reflexivity.
Defined.

Lemma request_failure_propagates_witness :
  data_of_instances two_instances
    (answers (Json [alice_row]) (Failed RequestException))
    ([instance_a] ++ instance_b :: []) []
  = (Raise RequestException, []).
Proof.
  apply (request_failure_propagates two_instances
           (answers (Json [alice_row]) (Failed RequestException))
           [instance_a] instance_b [] RequestException []).
  - intros j Hj. apply list_elem_of_In in Hj. simpl in Hj.
    destruct Hj as [<- | []]. eexists. vm_compute. reflexivity.
  - vm_compute. reflexivity.
Defined.

Lemma show_data_prints_latest_witness :
  exists sorted ls,
    sorted ≡ₚ spec_fetched two_instances string_timestamps
                (arg_instance two_instances)
    /\ Sorted ts_ge sorted
    /\ spec_render two_instances utc_fromtimestamp 1
         (spec_selected two_instances (arg_limit two_instances) sorted)
       = Return ls
    /\ show_data two_instances utc_fromtimestamp string_timestamps []
       = (Return tt, [] ++ ls).
Proof.
  apply (show_data_prints_latest two_instances utc_fromtimestamp
           string_timestamps []).
  - intros i Hi. apply list_elem_of_In in Hi. simpl in Hi.
    destruct Hi as [<- | [<- | []]]; eexists; vm_compute; reflexivity.
  - right. repeat constructor; eexists; vm_compute; reflexivity.
  - repeat (apply Forall_cons_2; [solve_renders|]). apply Forall_nil_2.
Defined.

Lemma show_data_incomparable_witness :
  show_data two_instances utc_fromtimestamp mixed_timestamps []
  = (Raise TypeError, []).
Proof.
  apply (show_data_incomparable two_instances utc_fromtimestamp
           mixed_timestamps []).
  - intros i Hi. apply list_elem_of_In in Hi. simpl in Hi.
    destruct Hi as [<- | [<- | []]]; eexists; vm_compute; reflexivity.
  - vm_compute. lia.
  - intros [H | H].
    + apply Forall_inv_tail, Forall_inv in H. vm_compute in H.
      by destruct H.
    + apply Forall_inv in H. vm_compute in H. by destruct H.
Defined.


Lemma wait_negative_never_times_out_witness :
  wait_polling (-1) [Tick (1 # 10) false; Tick (1500 # 1) false;
                     Tick (1501 # 1) true]
    ≠ Some (Return TimedOut).
Proof.
  apply (wait_negative_never_times_out (-1)).
  lia.
Defined.

Lemma wait_ends_by_interval_witness :
  exists o,
    wait_polling 120 [Tick (1 # 10) false; Tick (60 # 1) false;
                      Tick (1201 # 10) false; Tick (1202 # 10) true]
    = Some o.
Proof.
  apply (wait_ends_by_interval 120 _ (1201 # 10) false).
  - lia.
  - by repeat constructor.
  - vm_compute. reflexivity.
Defined.

Example wait_examples :
  wait_polling 120 [Tick (1 # 10) false; Tick (2 # 10) true]
    = Some (Return KeyRead)
  /\ wait_polling 120 [Tick (1 # 10) false; Tick (120 # 1) true]
     = Some (Return TimedOut)
  /\ wait_polling (-1) [Tick (500 # 1) false; Sigint]
     = Some (Raise KeyboardInterrupt)
  /\ wait_polling (-1) [Tick (500 # 1) false; Tick (501 # 1) false] = None.
Proof. vm_compute. repeat split. Qed.
